(** * plot_benchmark: a model of [utils/plot_benchmark.py]

    The script reads [summary.csv] and [system_info.txt] from a results
    directory, derives a "Worker Label" per row, picks the best row of four
    metric columns and hands four bar charts to the plotting library.

    Modelling conventions.
    - A cell of the frame returned by [pd.read_csv] is a number, NaN or a
      text ([pyval]).  Numbers are the finite values a float or an int
      denotes, as rationals; infinities are left out.
    - What the libraries decide and the script does not is a parameter
      ([Libs]): which texts pandas' numeric parser accepts, which texts
      Python's [int()] accepts, and whether [idxmin]/[idxmax] raise on a
      column with no number at all (pandas 3) or return NaN (pandas 1, 2).
    - A frame has the default index 0..n-1, so a row label is a position.
    - The results directory is the three files the script touches; a file
      that exists is readable.  What seaborn draws from the arguments of
      [sns.barplot] is behind the library boundary: a panel records the
      arguments. *)

From Stdlib Require Import ZArith QArith Qround Qabs String Ascii List Lia.
From stdpp Require Import base option list gmap strings pretty.

Local Open Scope string_scope.
Local Open Scope list_scope.

(** ** Exceptions and the result of a computation that may raise *)

Inductive exn :=
  | KeyError (key : string)
  | ValueError
  | TypeError.

Inductive res (A : Type) :=
  | Ok (a : A)
  | Raise (e : exn).
Arguments Ok {A} a.
Arguments Raise {A} e.

Definition res_bind {A B} (c : res A) (k : A -> res B) : res B :=
  match c with
  | Ok a => k a
  | Raise e => Raise e
  end.

Notation "'let*' x := c 'in' k" := (res_bind c (fun x => k))
  (at level 10, x name, c at level 100, k at level 200).

Fixpoint res_map {A B} (f : A -> res B) (l : list A) : res (list B) :=
  match l with
  | [] => Ok []
  | a :: l' =>
      let* b := f a in
      let* bs := res_map f l' in
      Ok (b :: bs)
  end.

(** ** Cells, columns and frames *)

Inductive pyval :=
  | PNum (x : Q)
  | PNaN
  | PStr (s : string).

Class Libs := {
  (** pandas' numeric parser on one text cell *)
  to_float : string -> option Q;
  (** Python's [int()] on a [str] *)
  int_of_str : string -> option Z;
  (** [idxmin]/[idxmax] of a non-empty column without a number:
      [true] raises ValueError, [false] returns NaN *)
  all_na_raises : bool;
  (** Python's [f"{x:.2f}"] on a float *)
  format_2f : Q -> string
}.

Record DataFrame := {
  nrows : nat;
  cols : gmap string (list pyval)
}.

(** [df[col]] *)
Definition getitem (df : DataFrame) (col : string) : res (list pyval) :=
  match cols df !! col with
  | Some s => Ok s
  | None => Raise (KeyError col)
  end.

(** [df[col] = s] *)
Definition setitem (df : DataFrame) (col : string) (s : list pyval) : DataFrame :=
  {| nrows := nrows df; cols := <[col := s]> (cols df) |}.

(** The cell of column [col] in row [i]; NaN where the column is short. *)
Definition cell (df : DataFrame) (col : string) (i : nat) : option pyval :=
  s ← cols df !! col; Some (default PNaN (s !! i)).

(** [row[col]] for the row [i] handed to the function of [df.apply(.., axis=1)] *)
Definition row_get (df : DataFrame) (i : nat) (col : string) : res pyval :=
  let* s := getitem df col in
  Ok (default PNaN (s !! i)).

(** ** System information: the scan of [system_info.txt] *)

(** [c.isspace()] on the ASCII range; a text is modelled by its bytes *)
Definition py_isspace (c : ascii) : bool :=
  let n := nat_of_ascii c in
  (Nat.leb 9 n && Nat.leb n 13) || (Nat.leb 28 n && Nat.leb n 32).

Fixpoint lstrip (s : string) : string :=
  match s with
  | String c s' => if py_isspace c then lstrip s' else s
  | EmptyString => EmptyString
  end.

Definition rstrip (s : string) : string := String.rev (lstrip (String.rev s)).

(** [s.strip()] *)
Definition strip (s : string) : string := rstrip (lstrip s).

(** [line.startswith(p)] *)
Definition startswith (p line : string) : bool := String.prefix p line.

Record SysInfo := {
  os_info : string;
  cpu_info : string;
  drive_info : string
}.

Definition default_info : SysInfo :=
  {| os_info := "OS: N/A"; cpu_info := "CPU: N/A";
     drive_info := "Drive Type: N/A" |}.

(** The body of [for line in lines] *)
Definition scan_line (st : SysInfo) (line : string) : SysInfo :=
  if startswith "OS:" line then
    {| os_info := strip line; cpu_info := cpu_info st;
       drive_info := drive_info st |}
  else if startswith "CPU:" line then
    {| os_info := os_info st; cpu_info := strip line;
       drive_info := drive_info st |}
  else if startswith "Drive Type:" line then
    {| os_info := os_info st; cpu_info := cpu_info st;
       drive_info := strip line |}
  else st.

(** [None] is a directory without [system_info.txt]; otherwise the lines
    that [readlines()] returns. *)
Definition read_system_info (file : option (list string)) : SysInfo :=
  match file with
  | Some lines => fold_left scan_line lines default_info
  | None => default_info
  end.

Definition system_info_display (st : SysInfo) : string :=
  os_info st +:+ " | " +:+ cpu_info st.

(** ** The figure *)

(** The arguments of one [sns.barplot] call with the titles set on its axes *)
Record Panel := {
  p_title : string;
  p_ylabel : string;
  p_xlabel : string;
  p_labels : list string;
  p_values : list pyval;
  p_palette : gmap string string
}.

Record Figure := {
  suptitle : string;
  caption_system : string;
  caption_drive : string;
  panels : list Panel
}.

(** The colour seaborn gives the bar of row [i]: the palette entry of the
    row's hue value, which is its Worker Label. *)
Definition row_color (p : Panel) (i : nat) : option string :=
  l ← p_labels p !! i; p_palette p !! l.

(** ** The results directory and a run *)

Record ResultsDir := {
  summary_csv : option DataFrame;
  system_info_txt : option (list string);
  benchmark_results_png : option Figure
}.

Inductive outcome :=
  | Exited (code : Z)
  | Uncaught (e : exn)
  | Finished.

Record Run := {
  run_outcome : outcome;
  run_stdout : list string;
  run_dir : ResultsDir
}.

(** [os.path.join(a, b)] for a relative [b] *)
Definition path_join (a b : string) : string :=
  if decide (a = EmptyString) then b
  else if String.prefix "/" (String.rev a) then a +:+ b
  else a +:+ "/" +:+ b.

(** ** Numeric coercion: [pd.to_numeric(df[col], errors="coerce")] *)

Definition numeric_cols : list string :=
  [ "Actual Workers"; "Max Memory (MB)"; "Avg CPU (%)";
    "Max Disk Read (kB/s)"; "Total Time (s)" ].

Section Program.
Context {L : Libs}.

Definition coerce_cell (v : pyval) : pyval :=
  match v with
  | PStr s => match to_float s with
              | Some x => PNum x
              | None => PNaN
              end
  | _ => v
  end.

Definition to_numeric (s : list pyval) : list pyval := map coerce_cell s.

(** [for col in numeric_cols: df[col] = pd.to_numeric(df[col], errors="coerce")] *)
Fixpoint coerce_columns (cs : list string) (df : DataFrame) : res DataFrame :=
  match cs with
  | [] => Ok df
  | col :: cs' =>
      let* s := getitem df col in
      coerce_columns cs' (setitem df col (to_numeric s))
  end.

(** ** The Worker Label column *)

(** [int(x)] of a float truncates towards zero *)
Definition Qtrunc (x : Q) : Z := Z.quot (Qnum x) (Zpos (Qden x)).

(** [v == 0] *)
Definition eq_zero (v : pyval) : bool :=
  match v with
  | PNum x => Qeq_bool x 0
  | _ => false
  end.

(** [pd.notna(v)] *)
Definition notna (v : pyval) : bool :=
  match v with
  | PNaN => false
  | _ => true
  end.

(** [int(v)] *)
Definition py_int (v : pyval) : res Z :=
  match v with
  | PNum x => Ok (Qtrunc x)
  | PNaN => Raise ValueError
  | PStr s => match int_of_str s with
              | Some z => Ok z
              | None => Raise ValueError
              end
  end.

(** [str(n)] of an int *)
Definition py_str (n : Z) : string := pretty n.

Definition create_label (row : string -> res pyval) : res string :=
  let* wc := row "Worker Count" in
  if eq_zero wc then
    let* aw := row "Actual Workers" in
    let* actual_str :=
      (if notna aw
       then let* n := py_int aw in Ok (py_str n)
       else Ok "N/A") in
    Ok ("Auto (" +:+ actual_str +:+ ")")
  else
    let* n := py_int wc in
    Ok (py_str n).

(** [df.apply(create_label, axis=1)]: one call per row, in row order.  On a
    frame without rows pandas swallows whatever its probing call raises, so
    nothing is raised here; the run then stops with ValueError at the
    assignment or at [idxmin], which [idx_extreme] accounts for. *)
Definition apply_rows (f : (string -> res pyval) -> res string)
    (df : DataFrame) : res (list string) :=
  res_map (fun i => f (row_get df i)) (seq 0 (nrows df)).

(** ** Best-of indices: [Series.idxmin] and [Series.idxmax] *)

(** What [idxmin]/[idxmax] return: a row label, or NaN *)
Inductive index :=
  | Idx (i : nat)
  | NaIdx.

Definition Qlt_bool (x y : Q) : bool := negb (Qle_bool y x).

Definition is_text (v : pyval) : bool :=
  match v with
  | PStr _ => true
  | _ => false
  end.

(** Position and value of the first best number of [s], NaN skipped;
    positions are counted from [i].  A later number replaces an earlier one
    only when it is strictly better. *)
Fixpoint arg_best (better : Q -> Q -> bool) (i : nat) (s : list pyval)
    : option (nat * Q) :=
  match s with
  | [] => None
  | v :: s' =>
      match v, arg_best better (S i) s' with
      | PNum x, Some (j, y) => if better y x then Some (j, y) else Some (i, x)
      | PNum x, None => Some (i, x)
      | _, r => r
      end
  end.

(** [idxmin]/[idxmax] of a column.  An empty column raises ValueError.  A
    column that still holds a text has no numeric extremum and raises
    TypeError; after the coercion loop the metric columns hold none. *)
Definition idx_extreme (better : Q -> Q -> bool) (s : list pyval) : res index :=
  if existsb is_text s then Raise TypeError
  else match s with
       | [] => Raise ValueError
       | _ => match arg_best better 0 s with
              | Some (i, _) => Ok (Idx i)
              | None => if all_na_raises then Raise ValueError else Ok NaIdx
              end
       end.

Definition idxmin : list pyval -> res index := idx_extreme Qlt_bool.
Definition idxmax : list pyval -> res index :=
  idx_extreme (fun y x => Qlt_bool x y).

(** ** Palettes: [{label: "green" if i == best else "#1f77b4" for i, label in enumerate(..)}] *)

Definition green : string := "green".
Definition default_blue : string := "#1f77b4".

(** [i == best] *)
Definition is_best (best : index) (i : nat) : bool :=
  match best with
  | Idx j => Nat.eqb i j
  | NaIdx => false
  end.

Definition bar_color (best : index) (i : nat) : string :=
  if is_best best i then green else default_blue.

(** The dict comprehension inserts in row order from position [i] on; a
    later row with the same label overwrites the entry. *)
Fixpoint palette_from (best : index) (i : nat) (labels : list string)
    (m : gmap string string) : gmap string string :=
  match labels with
  | [] => m
  | l :: ls => palette_from best (S i) ls (<[l := bar_color best i]> m)
  end.

Definition make_palette (best : index) (labels : list string)
    : gmap string string :=
  palette_from best 0 labels ∅.

(** ** Bar annotations: [add_labels_barh] *)

(** The text put next to a bar of the given width ([None] is NaN) *)
Definition bar_text (width : option Q) : string :=
  match width with
  | Some x => format_2f x
  | None => "N/A"
  end.

Definition add_labels_barh (widths : list (option Q)) : list string :=
  map bar_text widths.

(** ** The run *)

Record Analysis := {
  a_frame : DataFrame;
  a_labels : list string;
  best_mem_idx : index;
  best_cpu_idx : index;
  best_disk_idx : index;
  best_time_idx : index
}.

(** Lines 37 to 98: coercion, labels, best-of indices *)
Definition analyse (df : DataFrame) : res Analysis :=
  let* df1 := coerce_columns numeric_cols df in
  let* labels := apply_rows create_label df1 in
  let df2 := setitem df1 "Worker Label" (map PStr labels) in
  let* mem := getitem df2 "Max Memory (MB)" in
  let* best_mem := idxmin mem in
  let* cpu := getitem df2 "Avg CPU (%)" in
  let* best_cpu := idxmin cpu in
  let* disk := getitem df2 "Max Disk Read (kB/s)" in
  let* best_disk := idxmax disk in
  let* time := getitem df2 "Total Time (s)" in
  let* best_time := idxmin time in
  Ok {| a_frame := df2; a_labels := labels;
        best_mem_idx := best_mem; best_cpu_idx := best_cpu;
        best_disk_idx := best_disk; best_time_idx := best_time |}.

(** One [sns.barplot(y="Worker Label", x=x, data=df, hue="Worker Label",
    palette=palette)] with its titles *)
Definition barplot (a : Analysis) (x : string) (best : index)
    (title xlabel : string) : res Panel :=
  let* xs := getitem (a_frame a) x in
  Ok {| p_title := title; p_ylabel := "Number of Workers";
        p_xlabel := xlabel; p_labels := a_labels a; p_values := xs;
        p_palette := make_palette best (a_labels a) |}.

(** Lines 62 to 188 *)
Definition draw (info : SysInfo) (a : Analysis) : res Figure :=
  let* p1 := barplot a "Max Memory (MB)" (best_mem_idx a)
               "Maximum Memory Usage" "Memory (MB)" in
  let* p2 := barplot a "Avg CPU (%)" (best_cpu_idx a)
               "Average CPU Usage" "CPU Usage (%)" in
  let* p3 := barplot a "Max Disk Read (kB/s)" (best_disk_idx a)
               "Maximum Disk Read I/O" "Read Rate (kB/s)" in
  let* p4 := barplot a "Total Time (s)" (best_time_idx a)
               "Total Processing Time" "Time (seconds)" in
  Ok {| suptitle := "mkbrr Performance Benchmark: Varying Worker Counts";
        caption_system := system_info_display info;
        caption_drive := drive_info info;
        panels := [p1; p2; p3; p4] |}.

Definition render (df : DataFrame) (info : SysInfo) : res Figure :=
  let* a := analyse df in
  draw info a.

Definition plot_benchmark_results (results_dir : string) (d : ResultsDir)
    : Run :=
  let summary_path := path_join results_dir "summary.csv" in
  match summary_csv d with
  | None =>
      {| run_outcome := Exited 1;
         run_stdout := ["Error: Summary file not found at " +:+ summary_path];
         run_dir := d |}
  | Some df =>
      let info := read_system_info (system_info_txt d) in
      match render df info with
      | Raise e =>
          {| run_outcome := Uncaught e; run_stdout := []; run_dir := d |}
      | Ok fig =>
          let output_path := path_join results_dir "benchmark_results.png" in
          {| run_outcome := Finished;
             run_stdout := ["Plot saved to: " +:+ output_path];
             run_dir := {| summary_csv := summary_csv d;
                           system_info_txt := system_info_txt d;
                           benchmark_results_png := Some fig |} |}
      end
  end.

(** [if __name__ == "__main__"], with [argv] as [sys.argv] *)
Definition main (argv : list string) (d : ResultsDir) : Run :=
  match argv with
  | [_; results_dir] => plot_benchmark_results results_dir d
  | _ =>
      {| run_outcome := Exited 1;
         run_stdout := ["Usage: python plot_benchmark.py <results_directory>"];
         run_dir := d |}
  end.

End Program.

(** ** A reference instance of the library parameters

    Texts made of decimal digits with an optional leading minus sign are
    numerals for pandas and for Python alike; this instance accepts exactly
    those.  Two decimals are printed by rounding the exact value half to
    even.  The instance serves to run the model on concrete tables. *)

Fixpoint digits_value (acc : Z) (s : string) : option Z :=
  match s with
  | EmptyString => Some acc
  | String c s' =>
      match Ascii.is_nat c with
      | Some d => digits_value (10 * acc + Z.of_nat d)%Z s'
      | None => None
      end
  end.

Definition parse_decimal (s : string) : option Z :=
  match s with
  | EmptyString => None
  | String "-" (String c s') => Z.opp <$> digits_value 0 (String c s')
  | _ => digits_value 0 s
  end.

Definition round_half_even (x : Q) : Z :=
  let f := Qfloor x in
  match (x - inject_Z f ?= 1 # 2)%Q with
  | Lt => f
  | Gt => (f + 1)%Z
  | Eq => if Z.even f then f else (f + 1)%Z
  end.

Definition two_digits (n : Z) : string :=
  (if (n <? 10)%Z then "0" else EmptyString) +:+ pretty n.

Definition round_2f (x : Q) : string :=
  let n := round_half_even (Qabs x * 100) in
  (if Qle_bool 0 x then EmptyString else "-")
    +:+ pretty (n / 100)%Z +:+ "." +:+ two_digits (n mod 100)%Z.

Definition reference_libs (raises : bool) : Libs :=
  {| to_float := fun s => inject_Z <$> parse_decimal s;
     int_of_str := parse_decimal;
     all_na_raises := raises;
     format_2f := round_2f |}.

(** * Vocabulary of the statements *)


(** The column has a number in some row *)
Definition has_number (s : list pyval) : Prop :=
  exists i x, s !! i = Some (PNum x).

(** Row [i] holds the least number of the column and is the first row to
    hold it; rows with NaN are not looked at. *)
Definition first_min_at (s : list pyval) (i : nat) : Prop :=
  exists x, s !! i = Some (PNum x) /\
    (forall j y, s !! j = Some (PNum y) -> (x <= y)%Q) /\
    (forall j y, s !! j = Some (PNum y) -> j < i -> (x < y)%Q).

(** Row [i] holds the greatest number of the column and is the first row
    to hold it. *)
Definition first_max_at (s : list pyval) (i : nat) : Prop :=
  exists x, s !! i = Some (PNum x) /\
    (forall j y, s !! j = Some (PNum y) -> (y <= x)%Q) /\
    (forall j y, s !! j = Some (PNum y) -> j < i -> (y < x)%Q).

(** The best-of index [ix] is the first row with the least (greatest)
    number of column [c] of the frame. *)
Definition column_min_at (df : DataFrame) (c : string) (ix : index) : Prop :=
  exists s i, cols df !! c = Some s /\ ix = Idx i /\ first_min_at s i.

Definition column_max_at (df : DataFrame) (c : string) (ix : index) : Prop :=
  exists s i, cols df !! c = Some s /\ ix = Idx i /\ first_max_at s i.

Definition metric_cols : list string :=
  [ "Max Memory (MB)"; "Avg CPU (%)"; "Max Disk Read (kB/s)"; "Total Time (s)" ].

Definition required_cols : list string := "Worker Count" :: numeric_cols.

Definition is_number (v : pyval) : bool :=
  match v with
  | PNum _ => true
  | _ => false
  end.

(** Each of the first [n] rows of the column holds a number *)
Definition all_numbers (n : nat) (s : list pyval) : bool :=
  forallb (fun i => match s !! i with
                    | Some v => is_number v
                    | None => false
                    end) (seq 0 n).

Definition column_is (p : list pyval -> bool) (df : DataFrame) (c : string)
    : bool :=
  match cols df !! c with
  | Some s => p s
  | None => false
  end.

(** Every column of the frame has one cell per row *)
Definition frame_wf (df : DataFrame) : Prop :=
  map_Forall (fun _ s => length s = nrows df) (cols df).

(** The display string of the field with prefix [p] after the scan of
    [lines]: the stripped last line that starts with [p], or the string
    [old] held before when no line does. *)
Definition field_after (p old : string) (lines : list string) : string :=
  match last (List.filter (startswith p) lines) with
  | Some line => strip line
  | None => old
  end.

(** The panel that [barplot] returns for the values [xs] *)
Definition panel_of (a : Analysis) (xs : list pyval) (best : index)
    (title xlabel : string) : Panel :=
  {| p_title := title; p_ylabel := "Number of Workers";
     p_xlabel := xlabel; p_labels := a_labels a; p_values := xs;
     p_palette := make_palette best (a_labels a) |}.

(** The best-of indices in the order of the panels *)
Definition analysis_best (a : Analysis) : list index :=
  [best_mem_idx a; best_cpu_idx a; best_disk_idx a; best_time_idx a].

(** The colours of rows 0 to 3 in panel [n] of a rendered figure *)
Definition panel_colors (r : res Figure) (n : nat)
    : option (list (option string)) :=
  match r with
  | Ok fig => p ← panels fig !! n; Some (map (row_color p) [0; 1; 2; 3])
  | Raise _ => None
  end.

Section Vocabulary.
Context {L : Libs}.


(** Some cell of the column is a number once coerced *)
Definition some_number (s : list pyval) : bool :=
  existsb (fun v => is_number (coerce_cell v)) s.

(** A table the script is written for: the six columns are there, every
    row has a number as Worker Count, and every metric column keeps at
    least one number after the coercion. *)
Definition valid_table (df : DataFrame) : bool :=
  column_is (all_numbers (nrows df)) df "Worker Count"
  && column_is (fun _ => true) df "Actual Workers"
  && forallb (column_is some_number df) metric_cols.


(** The four best-of indices of an analysis, or the exception *)
Definition best_indices (r : res Analysis) : res (list index) :=
  let* a := r in
  Ok (analysis_best a).

End Vocabulary.

(** ** Tables and runs for the examples *)

Definition frame (n : nat) (l : list (string * list pyval)) : DataFrame :=
  {| nrows := n; cols := list_to_map l |}.

Definition num (z : Z) : pyval := PNum (inject_Z z).

(** A results directory with the table [df] and nothing else *)
Definition dir_with (df : DataFrame) : ResultsDir :=
  {| summary_csv := Some df; system_info_txt := None;
     benchmark_results_png := None |}.

Definition ex_empty_dir : ResultsDir :=
  {| summary_csv := None; system_info_txt := None;
     benchmark_results_png := None |}.

Definition ex_libs : Libs := reference_libs false.

(** The run on a directory that holds the table [df] and nothing else *)
Definition ex_run (df : DataFrame) : Run :=
  plot_benchmark_results (L := ex_libs) "results" (dir_with df).

(** Three runs: automatic workers (8 resolved), 2 workers, 4 workers; one
    Actual Workers cell, one CPU cell and one time cell are not numerals. *)
Definition ex_table : DataFrame :=
  frame 3
    [ ("Worker Count", [num 0; num 2; num 4]);
      ("Actual Workers", [num 8; PNaN; PStr "n/a"]);
      ("Max Memory (MB)", [num 100; num 50; num 200]);
      ("Avg CPU (%)", [PStr "abc"; num 50; num 20]);
      ("Max Disk Read (kB/s)", [num 100; num 50; num 200]);
      ("Total Time (s)", [PStr "12"; PStr "x"; PStr "7"]) ].

(** [ex_table] after the coercion loop *)
Definition ex_coerced : DataFrame :=
  frame 3
    [ ("Worker Count", [num 0; num 2; num 4]);
      ("Actual Workers", [num 8; PNaN; PNaN]);
      ("Max Memory (MB)", [num 100; num 50; num 200]);
      ("Avg CPU (%)", [PNaN; num 50; num 20]);
      ("Max Disk Read (kB/s)", [num 100; num 50; num 200]);
      ("Total Time (s)", [num 12; PNaN; num 7]) ].

Definition ex_labels : list string := ["Auto (8)"; "2"; "4"].

(** The analysis of [ex_table] *)
Definition ex_analysis : Analysis :=
  {| a_frame := setitem ex_coerced "Worker Label" (map PStr ex_labels);
     a_labels := ex_labels;
     best_mem_idx := Idx 1; best_cpu_idx := Idx 2;
     best_disk_idx := Idx 2; best_time_idx := Idx 2 |}.

(** The memory panel drawn for [ex_table] *)
Definition ex_mem_panel : Panel :=
  panel_of ex_analysis [num 100; num 50; num 200] (Idx 1)
    "Maximum Memory Usage" "Memory (MB)".

(** The figure drawn for [ex_table] without system information *)
Definition ex_figure : Figure :=
  {| suptitle := "mkbrr Performance Benchmark: Varying Worker Counts";
     caption_system := "OS: N/A | CPU: N/A";
     caption_drive := "Drive Type: N/A";
     panels :=
       [ ex_mem_panel;
         panel_of ex_analysis [PNaN; num 50; num 20] (Idx 2)
           "Average CPU Usage" "CPU Usage (%)";
         panel_of ex_analysis [num 100; num 50; num 200] (Idx 2)
           "Maximum Disk Read I/O" "Read Rate (kB/s)";
         panel_of ex_analysis [num 12; PNaN; num 7] (Idx 2)
           "Total Processing Time" "Time (seconds)" ] |}.


(** Three runs, two of them with 2 workers; the run with 1 worker is the
    best one in all four metrics. *)
Definition ex_repeated : DataFrame :=
  frame 3
    [ ("Worker Count", [num 1; num 2; num 2]);
      ("Actual Workers", [PNaN; PNaN; PNaN]);
      ("Max Memory (MB)", [num 10; num 20; num 30]);
      ("Avg CPU (%)", [num 50; num 60; num 70]);
      ("Max Disk Read (kB/s)", [num 300; num 200; num 100]);
      ("Total Time (s)", [num 12; num 14; num 16]) ].

(** A summary file with the header of the five coerced columns, no
    Worker Count column and no row *)
Definition ex_header_only : DataFrame :=
  frame 0
    [ ("Actual Workers", []); ("Max Memory (MB)", []); ("Avg CPU (%)", []);
      ("Max Disk Read (kB/s)", []); ("Total Time (s)", []) ].

(** One run, without the Total Time column *)
Definition ex_no_time : DataFrame :=
  frame 1
    [ ("Worker Count", [num 2]);
      ("Actual Workers", [PNaN]);
      ("Max Memory (MB)", [num 100]);
      ("Avg CPU (%)", [num 50]);
      ("Max Disk Read (kB/s)", [num 300]) ].

(** Two runs whose Total Time cells are no numerals *)
Definition ex_time_missing : DataFrame :=
  frame 2
    [ ("Worker Count", [num 2; num 4]);
      ("Actual Workers", [PNaN; PNaN]);
      ("Max Memory (MB)", [num 100; num 50]);
      ("Avg CPU (%)", [num 50; num 60]);
      ("Max Disk Read (kB/s)", [num 300; num 200]);
      ("Total Time (s)", [PStr "slow"; PStr "fast"]) ].

Definition newline : string := String "010" EmptyString.

Definition ex_info_lines : list string :=
  [ "OS: Linux" +:+ newline; "CPU: one" +:+ newline; "note";
    "CPU: two  " +:+ newline ].

(** * Further vocabulary: runs, paths, system information *)



(** A line that the scan of system_info.txt looks at *)
Definition is_info_line (line : string) : bool :=
  startswith "OS:" line || startswith "CPU:" line
  || startswith "Drive Type:" line.


(** The text has no white space at its start *)
Definition no_leading_space (s : string) : Prop :=
  match s with
  | String c _ => py_isspace c = false
  | EmptyString => True
  end.


Section More_vocabulary.
Context {L : Libs}.





End More_vocabulary.

(** ** Bars and their annotations *)



Section Annotations.
Context {L : Libs}.



End Annotations.



(** The text has white space neither at its start nor at its end *)
Definition trimmed (s : string) : Prop :=
  no_leading_space s /\ no_leading_space (String.rev s).


(** * Properties *)

(** ** The result monad *)

Lemma res_map_length {A B} (f : A -> res B) l bs :
  res_map f l = Ok bs -> length bs = length l.
Proof.
  revert bs. induction l as [|a l IH]; intros bs; simpl.
  - intros [= <-]. reflexivity.
  - destruct (f a) as [b|e]; simpl; [|discriminate].
    destruct (res_map f l) as [bs'|e]; simpl; [|discriminate].
    intros [= <-]. simpl. f_equal. apply IH. reflexivity.
Qed.


Lemma res_map_total {A B} (f : A -> res B) l :
  (forall a, a ∈ l -> exists b, f a = Ok b) ->
  exists bs, res_map f l = Ok bs.
Proof.
  induction l as [|a l IH]; intros Hall; simpl.
  - exists []. reflexivity.
  - destruct (Hall a) as [b Hb]; [left|].
    destruct IH as [bs Hbs].
    { intros a' Ha'. apply Hall. right. exact Ha'. }
    rewrite Hb, Hbs. simpl. exists (b :: bs). reflexivity.
Qed.

(** ** Numeric coercion *)

Section Coercion.
Context {L : Libs}.

Lemma coerce_cell_idem v : coerce_cell (coerce_cell v) = coerce_cell v.
Proof.
  destruct v as [x| |s]; simpl; try reflexivity.
  destruct (to_float s); reflexivity.
Qed.

Lemma to_numeric_idem s : to_numeric (to_numeric s) = to_numeric s.
Proof.
  unfold to_numeric. rewrite map_map. apply map_ext.
  intros v. apply coerce_cell_idem.
Qed.

Lemma coerce_cell_no_text v : is_text (coerce_cell v) = false.
Proof.
  destruct v as [x| |s]; simpl; try reflexivity.
  destruct (to_float s); reflexivity.
Qed.

Lemma to_numeric_no_text s : existsb is_text (to_numeric s) = false.
Proof.
  induction s as [|v s IH]; simpl; [reflexivity|].
  rewrite coerce_cell_no_text, IH. reflexivity.
Qed.

Lemma to_numeric_lookup s i :
  to_numeric s !! i = coerce_cell <$> s !! i.
Proof. unfold to_numeric. apply list_lookup_fmap. Qed.

(** The loop keeps the row count, rewrites exactly the listed columns and
    leaves every other column alone. *)
Lemma coerce_columns_spec cs df df1 :
  coerce_columns cs df = Ok df1 ->
  nrows df1 = nrows df /\
  forall c, cols df1 !! c =
    if decide (c ∈ cs) then to_numeric <$> cols df !! c else cols df !! c.
Proof.
  revert df. induction cs as [|col cs IH]; intros df; simpl.
  - intros [= <-]. split; [reflexivity|]. intros c.
    destruct (decide (c ∈ [])) as [Hin|_]; [inversion Hin | reflexivity].
  - unfold getitem. destruct (cols df !! col) as [s|] eqn:Hcol; simpl;
      [|discriminate].
    intros Hrec. destruct (IH _ Hrec) as [Hn Hc]. split; [exact Hn|].
    intros c. rewrite Hc. simpl.
    destruct (decide (col = c)) as [->|Hne].
    + rewrite lookup_insert_eq, Hcol. simpl.
      rewrite (decide_True (P := c ∈ c :: cs)) by left.
      destruct (decide (c ∈ cs)); simpl; [|reflexivity].
      rewrite to_numeric_idem. reflexivity.
    + rewrite lookup_insert_ne by exact Hne.
      destruct (decide (c ∈ cs)) as [Hin|Hnin].
      * rewrite (decide_True (P := c ∈ col :: cs)) by (right; exact Hin).
        reflexivity.
      * rewrite (decide_False (P := c ∈ col :: cs)); [reflexivity|].
        intros Hin. inversion Hin; subst; [apply Hne; reflexivity | contradiction].
Qed.

Lemma coerce_columns_total cs df :
  (forall c, c ∈ cs -> is_Some (cols df !! c)) ->
  exists df1, coerce_columns cs df = Ok df1.
Proof.
  revert df. induction cs as [|col cs IH]; intros df Hall; simpl.
  - exists df. reflexivity.
  - unfold getitem. destruct (Hall col) as [s Hs]; [left|].
    rewrite Hs. simpl. apply IH. intros c Hc. simpl.
    destruct (decide (col = c)) as [->|Hne].
    + rewrite lookup_insert_eq. eexists. reflexivity.
    + rewrite lookup_insert_ne by exact Hne. apply Hall. right. exact Hc.
Qed.

(** The loop stops at a column that the frame lacks, with its KeyError. *)
Lemma coerce_columns_missing cs df c :
  c ∈ cs -> cols df !! c = None ->
  exists k, k ∈ cs /\ cols df !! k = None /\
            coerce_columns cs df = Raise (KeyError k).
Proof.
  revert df. induction cs as [|col cs IH]; intros df Hin Hnone.
  - inversion Hin.
  - simpl. unfold getitem.
    destruct (cols df !! col) as [s|] eqn:Hcol; simpl.
    + assert (col <> c) as Hne by (intros ->; congruence).
      assert (c ∈ cs) as Hin'.
      { inversion Hin; subst; [contradiction | assumption]. }
      destruct (IH (setitem df col (to_numeric s)) Hin') as (k & Hk & Hnk & Hr).
      { simpl. rewrite lookup_insert_ne by exact Hne. exact Hnone. }
      exists k. split; [right; exact Hk|]. split; [|exact Hr].
      simpl in Hnk. destruct (decide (col = k)) as [->|Hne'].
      * rewrite lookup_insert_eq in Hnk. discriminate.
      * rewrite lookup_insert_ne in Hnk by exact Hne'. exact Hnk.
    + exists col. split; [left|]. split; [exact Hcol | reflexivity].
Qed.

(** A cell of the coerced frame, from the cell of the frame as read *)
Lemma coerce_columns_cell cs df df1 c i :
  coerce_columns cs df = Ok df1 ->
  cell df1 c i =
    if decide (c ∈ cs) then coerce_cell <$> cell df c i else cell df c i.
Proof.
  intros H. destruct (coerce_columns_spec _ _ _ H) as [_ Hc].
  unfold cell. rewrite Hc. destruct (decide (c ∈ cs)); [|reflexivity].
  destruct (cols df !! c) as [s|]; simpl; [|reflexivity].
  rewrite to_numeric_lookup. destruct (s !! i); reflexivity.
Qed.

End Coercion.

(** ** Worker labels *)

Lemma worker_count_not_coerced : "Worker Count" ∉ numeric_cols.
Proof.
  unfold numeric_cols. intros H.
  repeat (apply elem_of_cons in H as [H|H]; [discriminate H|]).
  inversion H.
Qed.


Section Labels.
Context {L : Libs}.

Lemma row_get_cell df i c :
  row_get df i c =
    match cell df c i with
    | Some v => Ok v
    | None => Raise (KeyError c)
    end.
Proof.
  unfold row_get, getitem, cell. destruct (cols df !! c); reflexivity.
Qed.


(** [create_label] on a row whose two cells are known *)
Lemma create_label_row df i wc aw :
  cell df "Worker Count" i = Some wc ->
  cell df "Actual Workers" i = Some aw ->
  create_label (row_get df i) =
    if eq_zero wc then
      if notna aw
      then let* n := py_int aw in Ok ("Auto (" +:+ py_str n +:+ ")")
      else Ok "Auto (N/A)"
    else let* n := py_int wc in Ok (py_str n).
Proof.
  intros Hwc Haw. unfold create_label.
  rewrite !row_get_cell, Hwc, Haw. simpl.
  destruct (eq_zero wc); [|reflexivity].
  destruct (notna aw); [|reflexivity].
  destruct (py_int aw); reflexivity.
Qed.

Lemma coerce_columns_present cs df df1 c :
  coerce_columns cs df = Ok df1 -> c ∈ cs -> is_Some (cols df !! c).
Proof.
  intros Hok Hin. destruct (cols df !! c) as [s|] eqn:Hc; [eexists; reflexivity|].
  destruct (coerce_columns_missing cs df c Hin Hc) as (k & _ & _ & Hr).
  congruence.
Qed.

(** After the coercion a cell of a coerced column is a number or NaN. *)
Lemma coerced_cell_shape cs df df1 c i :
  coerce_columns cs df = Ok df1 -> c ∈ cs ->
  exists v, cell df1 c i = Some v /\ is_text v = false.
Proof.
  intros Hok Hin. rewrite (coerce_columns_cell _ _ _ _ _ Hok).
  rewrite decide_True by exact Hin.
  destruct (coerce_columns_present _ _ _ _ Hok Hin) as [s Hs].
  unfold cell. rewrite Hs. simpl. eexists. split; [reflexivity|].
  apply coerce_cell_no_text.
Qed.


Lemma apply_rows_length f df labels :
  apply_rows f df = Ok labels -> length labels = nrows df.
Proof.
  unfold apply_rows. intros Hok.
  rewrite (res_map_length _ _ _ Hok). apply length_seq.
Qed.

(** A row with a number as Worker Count gets a label once the Actual
    Workers column has been coerced. *)
Lemma create_label_total df i x aw :
  cell df "Worker Count" i = Some (PNum x) ->
  cell df "Actual Workers" i = Some aw -> is_text aw = false ->
  exists l, create_label (row_get df i) = Ok l.
Proof.
  intros Hwc Haw Htext. rewrite (create_label_row _ _ _ _ Hwc Haw).
  destruct (eq_zero (PNum x)).
  - destruct aw as [y| |s]; simpl; [eexists; reflexivity ..|discriminate].
  - simpl. eexists. reflexivity.
Qed.

End Labels.

Example annotations_of_widths :
  add_labels_barh (L := ex_libs) [Some (25 # 2); None; Some (1 # 8)]
  = ["12.50"; "N/A"; "0.12"].
Proof. vm_compute. reflexivity. Qed.

Example label_auto_4 :
  create_label (L := ex_libs)
    (row_get (frame 1 [("Worker Count", [num 0]); ("Actual Workers", [num 4])]) 0)
  = Ok "Auto (4)".
Proof. vm_compute. reflexivity. Qed.

Example label_auto_missing :
  create_label (L := ex_libs)
    (row_get (frame 1 [("Worker Count", [num 0]); ("Actual Workers", [PNaN])]) 0)
  = Ok "Auto (N/A)".
Proof. vm_compute. reflexivity. Qed.

Example label_of_count :
  create_label (L := ex_libs)
    (row_get (frame 1 [("Worker Count", [num 16]); ("Actual Workers", [PNaN])]) 0)
  = Ok "16".
Proof. vm_compute. reflexivity. Qed.

(** ** Best-of indices *)

Lemma Qlt_bool_iff x y : Qlt_bool x y = true <-> (x < y)%Q.
Proof.
  unfold Qlt_bool. rewrite negb_true_iff. split.
  - intros H. apply Qnot_le_lt. intros Hle.
    apply Qle_bool_iff in Hle. congruence.
  - intros H. destruct (Qle_bool y x) eqn:Hle; [|reflexivity].
    apply Qle_bool_iff in Hle. exfalso. exact (Qlt_not_le _ _ H Hle).
Qed.

Lemma Qlt_bool_false x y : Qlt_bool x y = false <-> (y <= x)%Q.
Proof.
  unfold Qlt_bool. rewrite negb_false_iff. apply Qle_bool_iff.
Qed.

Lemma arg_best_none better i s :
  arg_best better i s = None -> forall k x, s !! k <> Some (PNum x).
Proof.
  revert i. induction s as [|v s IH]; intros i Hnone k x; [discriminate|].
  simpl in Hnone.
  destruct v as [x0| |t].
  - destruct (arg_best better (S i) s) as [[j y]|]; [|discriminate].
    destruct (better y x0); discriminate.
  - destruct k as [|k]; [discriminate|]. apply (IH _ Hnone).
  - destruct k as [|k]; [discriminate|]. apply (IH _ Hnone).
Qed.

Lemma arg_best_some better i s k x :
  s !! k = Some (PNum x) -> exists j y, arg_best better i s = Some (j, y).
Proof.
  intros Hk. destruct (arg_best better i s) as [[j y]|] eqn:Hr.
  - exists j, y. reflexivity.
  - exfalso. exact (arg_best_none _ _ _ Hr k x Hk).
Qed.

Section ArgBest.
Variable better : Q -> Q -> bool.
Hypothesis better_asym : forall x y, better x y = true -> better y x = false.
Hypothesis better_negtrans :
  forall x y z, better x y = false -> better y z = false -> better x z = false.

Lemma better_irrefl x : better x x = false.
Proof.
  destruct (better x x) eqn:H; [|reflexivity].
  rewrite (better_asym _ _ H) in H. discriminate.
Qed.

(** The pair returned sits in the column, no number of the column is
    strictly better, and every number before it is strictly worse. *)
Lemma arg_best_spec i s j y :
  arg_best better i s = Some (j, y) ->
  i <= j /\ s !! (j - i) = Some (PNum y) /\
  forall k x, s !! k = Some (PNum x) ->
    better x y = false /\ (i + k < j -> better y x = true).
Proof.
  revert i j y. induction s as [|v s IH]; intros i j y Hres; [discriminate|].
  simpl in Hres.
  destruct (arg_best better (S i) s) as [[j' y']|] eqn:Hrec.
  - destruct (IH _ _ _ Hrec) as (Hle & Hat & Hall).
    destruct v as [x0| |t].
    + destruct (better y' x0) eqn:Hb; injection Hres as <- <-.
      * split; [lia|]. split.
        { replace (j' - i) with (S (j' - S i)) by lia. exact Hat. }
        intros [|k] x Hk; simpl in Hk.
        -- injection Hk as <-. split; [apply better_asym; exact Hb|].
           intros _. exact Hb.
        -- destruct (Hall k x Hk) as [H1 H2]. split; [exact H1|].
           intros Hlt. apply H2. lia.
      * split; [lia|]. split.
        { rewrite Nat.sub_diag. reflexivity. }
        intros [|k] x Hk; simpl in Hk.
        -- injection Hk as <-. split; [apply better_irrefl | lia].
        -- destruct (Hall k x Hk) as [H1 _]. split; [|lia].
           exact (better_negtrans _ _ _ H1 Hb).
    + injection Hres as <- <-. split; [lia|]. split.
      { replace (j' - i) with (S (j' - S i)) by lia. exact Hat. }
      intros [|k] x Hk; simpl in Hk; [discriminate|].
      destruct (Hall k x Hk) as [H1 H2]. split; [exact H1|].
      intros Hlt. apply H2. lia.
    + injection Hres as <- <-. split; [lia|]. split.
      { replace (j' - i) with (S (j' - S i)) by lia. exact Hat. }
      intros [|k] x Hk; simpl in Hk; [discriminate|].
      destruct (Hall k x Hk) as [H1 H2]. split; [exact H1|].
      intros Hlt. apply H2. lia.
  - destruct v as [x0| |t]; [|discriminate ..].
    injection Hres as <- <-. split; [lia|]. split.
    { rewrite Nat.sub_diag. reflexivity. }
    intros [|k] x Hk; simpl in Hk.
    + injection Hk as <-. split; [apply better_irrefl | lia].
    + exfalso. exact (arg_best_none _ _ _ Hrec k x Hk).
Qed.

End ArgBest.

Lemma Qlt_bool_asym x y : Qlt_bool x y = true -> Qlt_bool y x = false.
Proof.
  rewrite Qlt_bool_iff, Qlt_bool_false. apply Qlt_le_weak.
Qed.

Lemma Qlt_bool_negtrans x y z :
  Qlt_bool x y = false -> Qlt_bool y z = false -> Qlt_bool x z = false.
Proof.
  rewrite !Qlt_bool_false. intros H1 H2. exact (Qle_trans _ _ _ H2 H1).
Qed.

Section BestOf.
Context {L : Libs}.

Lemma has_number_nonempty s : has_number s -> s <> [].
Proof. intros (i & x & Hi) ->. discriminate Hi. Qed.

Lemma idx_extreme_number better s :
  existsb is_text s = false -> has_number s ->
  exists j y, arg_best better 0 s = Some (j, y) /\
              idx_extreme better s = Ok (Idx j).
Proof.
  intros Htext Hnum. pose proof (has_number_nonempty _ Hnum) as Hne.
  destruct Hnum as (k & x & Hk).
  destruct (arg_best_some better 0 s k x Hk) as (j & y & Hr).
  exists j, y. split; [exact Hr|].
  unfold idx_extreme. rewrite Htext, Hr.
  destruct s; [contradiction | reflexivity].
Qed.

Lemma idxmin_first_min s :
  existsb is_text s = false -> has_number s ->
  exists i, idxmin s = Ok (Idx i) /\ first_min_at s i.
Proof.
  intros Htext Hnum.
  destruct (idx_extreme_number Qlt_bool s Htext Hnum) as (j & y & Hr & Hidx).
  exists j. split; [exact Hidx|].
  destruct (arg_best_spec Qlt_bool Qlt_bool_asym Qlt_bool_negtrans _ _ _ _ Hr)
    as (_ & Hat & Hall).
  rewrite Nat.sub_0_r in Hat. exists y. split; [exact Hat|]. split.
  - intros k x Hk. destruct (Hall k x Hk) as [H _].
    apply Qlt_bool_false. exact H.
  - intros k x Hk Hlt. destruct (Hall k x Hk) as [_ H].
    apply Qlt_bool_iff. apply H. exact Hlt.
Qed.

Lemma idxmax_first_max s :
  existsb is_text s = false -> has_number s ->
  exists i, idxmax s = Ok (Idx i) /\ first_max_at s i.
Proof.
  intros Htext Hnum.
  destruct (idx_extreme_number (fun y x => Qlt_bool x y) s Htext Hnum)
    as (j & y & Hr & Hidx).
  exists j. split; [exact Hidx|].
  assert (forall a b, Qlt_bool b a = true -> Qlt_bool a b = false) as Hasym.
  { intros a b. apply Qlt_bool_asym. }
  assert (forall a b c, Qlt_bool b a = false -> Qlt_bool c b = false ->
                        Qlt_bool c a = false) as Hnt.
  { intros a b c H1 H2. exact (Qlt_bool_negtrans _ _ _ H2 H1). }
  destruct (arg_best_spec (fun y x => Qlt_bool x y) Hasym Hnt _ _ _ _ Hr)
    as (_ & Hat & Hall).
  rewrite Nat.sub_0_r in Hat. exists y. split; [exact Hat|]. split.
  - intros k x Hk. destruct (Hall k x Hk) as [H _].
    apply Qlt_bool_false. exact H.
  - intros k x Hk Hlt. destruct (Hall k x Hk) as [_ H].
    apply Qlt_bool_iff. apply H. exact Hlt.
Qed.

(** The analysis, once the coercion and the labels are known *)
Lemma analyse_steps df df1 labels :
  coerce_columns numeric_cols df = Ok df1 ->
  apply_rows create_label df1 = Ok labels ->
  analyse df =
    (let* mem := getitem df1 "Max Memory (MB)" in
     let* best_mem := idxmin mem in
     let* cpu := getitem df1 "Avg CPU (%)" in
     let* best_cpu := idxmin cpu in
     let* disk := getitem df1 "Max Disk Read (kB/s)" in
     let* best_disk := idxmax disk in
     let* time := getitem df1 "Total Time (s)" in
     let* best_time := idxmin time in
     Ok {| a_frame := setitem df1 "Worker Label" (map PStr labels);
           a_labels := labels;
           best_mem_idx := best_mem; best_cpu_idx := best_cpu;
           best_disk_idx := best_disk; best_time_idx := best_time |}).
Proof.
  intros H1 H2. unfold analyse. rewrite H1. simpl. rewrite H2. simpl.
  unfold getitem, setitem. simpl.
  rewrite !lookup_insert_ne by discriminate. reflexivity.
Qed.

Lemma coerced_column cs df df1 c :
  coerce_columns cs df = Ok df1 -> c ∈ cs ->
  exists s, cols df !! c = Some s /\ cols df1 !! c = Some (to_numeric s).
Proof.
  intros Hok Hin. destruct (coerce_columns_present _ _ _ _ Hok Hin) as [s Hs].
  exists s. split; [exact Hs|].
  destruct (coerce_columns_spec _ _ _ Hok) as [_ Hc].
  rewrite Hc, decide_True by exact Hin. rewrite Hs. reflexivity.
Qed.

End BestOf.

(** ** The scan of the system information file *)

Lemma prefix_cons a p b s :
  String.prefix (String a p) (String b s) =
    if ascii_dec a b then String.prefix p s else false.
Proof. reflexivity. Qed.

Lemma prefix_os_cpu line :
  startswith "OS:" line = true -> startswith "CPU:" line = false.
Proof.
  unfold startswith. destruct line as [|c line]; [intros H; discriminate H|].
  rewrite !prefix_cons.
  destruct (ascii_dec "O" c) as [<-|]; [|intros H; discriminate H].
  intros _. reflexivity.
Qed.

Lemma prefix_os_drive line :
  startswith "OS:" line = true -> startswith "Drive Type:" line = false.
Proof.
  unfold startswith. destruct line as [|c line]; [intros H; discriminate H|].
  rewrite !prefix_cons.
  destruct (ascii_dec "O" c) as [<-|]; [|intros H; discriminate H].
  intros _. reflexivity.
Qed.

Lemma prefix_cpu_drive line :
  startswith "CPU:" line = true -> startswith "Drive Type:" line = false.
Proof.
  unfold startswith. destruct line as [|c line]; [intros H; discriminate H|].
  rewrite !prefix_cons.
  destruct (ascii_dec "C" c) as [<-|]; [|intros H; discriminate H].
  intros _. reflexivity.
Qed.

Lemma field_after_cons_hit p old line lines :
  startswith p line = true ->
  field_after p old (line :: lines) = field_after p (strip line) lines.
Proof.
  intros Hp. unfold field_after. simpl. rewrite Hp, last_cons.
  destruct (last (List.filter (startswith p) lines)); reflexivity.
Qed.

Lemma field_after_cons_miss p old line lines :
  startswith p line = false ->
  field_after p old (line :: lines) = field_after p old lines.
Proof.
  intros Hp. unfold field_after. simpl. rewrite Hp. reflexivity.
Qed.

Lemma scan_lines_fields lines st :
  fold_left scan_line lines st =
    {| os_info := field_after "OS:" (os_info st) lines;
       cpu_info := field_after "CPU:" (cpu_info st) lines;
       drive_info := field_after "Drive Type:" (drive_info st) lines |}.
Proof.
  revert st. induction lines as [|line lines IH]; intros st; simpl.
  - destruct st; reflexivity.
  - rewrite IH. unfold scan_line.
    destruct (startswith "OS:" line) eqn:Hos.
    { rewrite (field_after_cons_hit "OS:") by exact Hos.
      rewrite (field_after_cons_miss "CPU:") by (apply prefix_os_cpu; exact Hos).
      rewrite (field_after_cons_miss "Drive Type:")
        by (apply prefix_os_drive; exact Hos).
      reflexivity. }
    rewrite (field_after_cons_miss "OS:") by exact Hos.
    destruct (startswith "CPU:" line) eqn:Hcpu.
    { rewrite (field_after_cons_hit "CPU:") by exact Hcpu.
      rewrite (field_after_cons_miss "Drive Type:")
        by (apply prefix_cpu_drive; exact Hcpu).
      reflexivity. }
    rewrite (field_after_cons_miss "CPU:") by exact Hcpu.
    destruct (startswith "Drive Type:" line) eqn:Hdrive.
    { rewrite (field_after_cons_hit "Drive Type:") by exact Hdrive.
      reflexivity. }
    rewrite (field_after_cons_miss "Drive Type:") by exact Hdrive.
    reflexivity.
Qed.

(** ** The analysis and the figure *)

Lemma res_bind_ok {A B} (c : res A) (k : A -> res B) b :
  res_bind c k = Ok b -> exists a, c = Ok a /\ k a = Ok b.
Proof.
  destruct c as [a|e]; simpl; [|discriminate].
  intros H. exists a. split; [reflexivity | exact H].
Qed.

Section Analysis.
Context {L : Libs}.

Lemma metric_is_numeric c : c ∈ metric_cols -> c ∈ numeric_cols.
Proof. intros Hc. unfold numeric_cols. right. exact Hc. Qed.

(** With a number in every metric column the analysis succeeds, and each
    best-of index is the first extremal row of its column. *)
Lemma analyse_best df df1 labels :
  coerce_columns numeric_cols df = Ok df1 ->
  apply_rows create_label df1 = Ok labels ->
  (forall c, c ∈ metric_cols ->
     exists s, cols df1 !! c = Some s /\ has_number s) ->
  exists a, analyse df = Ok a /\
    a_frame a = setitem df1 "Worker Label" (map PStr labels) /\
    a_labels a = labels /\
    column_min_at df1 "Max Memory (MB)" (best_mem_idx a) /\
    column_min_at df1 "Avg CPU (%)" (best_cpu_idx a) /\
    column_max_at df1 "Max Disk Read (kB/s)" (best_disk_idx a) /\
    column_min_at df1 "Total Time (s)" (best_time_idx a).
Proof.
  intros Hco Hlab Hnum.
  assert (forall c, c ∈ metric_cols ->
            exists s, cols df1 !! c = Some s /\ has_number s /\
                      existsb is_text s = false) as Hcol.
  { intros c Hc. destruct (Hnum c Hc) as (s & Hs & Hn).
    exists s. split; [exact Hs|]. split; [exact Hn|].
    destruct (coerced_column _ _ _ _ Hco (metric_is_numeric _ Hc))
      as (s0 & _ & Hs0).
    rewrite Hs in Hs0. injection Hs0 as ->. apply to_numeric_no_text. }
  destruct (Hcol "Max Memory (MB)") as (mem & Hmem & Nmem & Tmem);
    [unfold metric_cols; set_solver|].
  destruct (Hcol "Avg CPU (%)") as (cpu & Hcpu & Ncpu & Tcpu);
    [unfold metric_cols; set_solver|].
  destruct (Hcol "Max Disk Read (kB/s)") as (disk & Hdisk & Ndisk & Tdisk);
    [unfold metric_cols; set_solver|].
  destruct (Hcol "Total Time (s)") as (time & Htime & Ntime & Ttime);
    [unfold metric_cols; set_solver|].
  destruct (idxmin_first_min mem Tmem Nmem) as (im & Him & Pm).
  destruct (idxmin_first_min cpu Tcpu Ncpu) as (ic & Hic & Pc).
  destruct (idxmax_first_max disk Tdisk Ndisk) as (id & Hid & Pd).
  destruct (idxmin_first_min time Ttime Ntime) as (it & Hit & Pt).
  eexists. split.
  { rewrite (analyse_steps _ _ _ Hco Hlab). unfold getitem.
    rewrite Hmem. simpl. rewrite Him. simpl.
    rewrite Hcpu. simpl. rewrite Hic. simpl.
    rewrite Hdisk. simpl. rewrite Hid. simpl.
    rewrite Htime. simpl. rewrite Hit. simpl. reflexivity. }
  simpl. split; [reflexivity|]. split; [reflexivity|].
  split; [exists mem, im; auto|]. split; [exists cpu, ic; auto|].
  split; [exists disk, id; auto|]. exists time, it; auto.
Qed.

(** What a successful analysis went through *)
Lemma analyse_inv df a :
  analyse df = Ok a ->
  exists df1 mem cpu disk time,
    coerce_columns numeric_cols df = Ok df1 /\
    apply_rows create_label df1 = Ok (a_labels a) /\
    a_frame a = setitem df1 "Worker Label" (map PStr (a_labels a)) /\
    cols (a_frame a) !! "Max Memory (MB)" = Some mem /\
    idxmin mem = Ok (best_mem_idx a) /\
    cols (a_frame a) !! "Avg CPU (%)" = Some cpu /\
    idxmin cpu = Ok (best_cpu_idx a) /\
    cols (a_frame a) !! "Max Disk Read (kB/s)" = Some disk /\
    idxmax disk = Ok (best_disk_idx a) /\
    cols (a_frame a) !! "Total Time (s)" = Some time /\
    idxmin time = Ok (best_time_idx a).
Proof.
  unfold analyse. intros H.
  apply res_bind_ok in H as (df1 & Hco & H).
  apply res_bind_ok in H as (labels & Hlab & H).
  apply res_bind_ok in H as (mem & Hmem & H).
  apply res_bind_ok in H as (im & Him & H).
  apply res_bind_ok in H as (cpu & Hcpu & H).
  apply res_bind_ok in H as (ic & Hic & H).
  apply res_bind_ok in H as (disk & Hdisk & H).
  apply res_bind_ok in H as (id & Hid & H).
  apply res_bind_ok in H as (time & Htime & H).
  apply res_bind_ok in H as (it & Hit & H).
  injection H as <-. simpl.
  assert (forall c s, getitem (setitem df1 "Worker Label" (map PStr labels)) c
                      = Ok s ->
            cols (setitem df1 "Worker Label" (map PStr labels)) !! c = Some s)
    as Hget.
  { intros c s. unfold getitem.
    destruct (cols _ !! c); [intros [= ->]; reflexivity | discriminate]. }
  exists df1, mem, cpu, disk, time. auto 20.
Qed.

(** After a successful analysis the drawing does not raise. *)
Lemma render_of_analyse df a info :
  analyse df = Ok a ->
  exists mem cpu disk time,
    render df info =
      Ok {| suptitle := "mkbrr Performance Benchmark: Varying Worker Counts";
            caption_system := system_info_display info;
            caption_drive := drive_info info;
            panels :=
              [ panel_of a mem (best_mem_idx a)
                  "Maximum Memory Usage" "Memory (MB)";
                panel_of a cpu (best_cpu_idx a)
                  "Average CPU Usage" "CPU Usage (%)";
                panel_of a disk (best_disk_idx a)
                  "Maximum Disk Read I/O" "Read Rate (kB/s)";
                panel_of a time (best_time_idx a)
                  "Total Processing Time" "Time (seconds)" ] |}.
Proof.
  intros Ha.
  destruct (analyse_inv _ _ Ha)
    as (df1 & mem & cpu & disk & time & _ & _ & _ & Hmem & _ & Hcpu & _
        & Hdisk & _ & Htime & _).
  exists mem, cpu, disk, time.
  unfold render. rewrite Ha. simpl. unfold draw, barplot, getitem.
  rewrite Hmem, Hcpu, Hdisk, Htime. reflexivity.
Qed.

End Analysis.

(** ** Valid tables and whole runs *)

Section Runs.
Context {L : Libs}.

Lemma column_is_true p df c :
  column_is p df c = true -> exists s, cols df !! c = Some s /\ p s = true.
Proof.
  unfold column_is. destruct (cols df !! c) as [s|]; [|discriminate].
  intros H. exists s. split; [reflexivity | exact H].
Qed.

Lemma all_numbers_lookup n s i :
  all_numbers n s = true -> i < n -> exists x, s !! i = Some (PNum x).
Proof.
  unfold all_numbers. rewrite forallb_forall. intros Hall Hi.
  specialize (Hall i). rewrite in_seq in Hall.
  destruct (s !! i) as [[x| |t]|]; try (exfalso; apply Bool.diff_false_true;
    apply Hall; lia).
  exists x. reflexivity.
Qed.

Lemma some_number_coerced s :
  some_number s = true -> has_number (to_numeric s).
Proof.
  unfold some_number. rewrite existsb_exists. intros (v & Hin & Hv).
  apply list_elem_of_In in Hin. apply list_elem_of_lookup in Hin as [i Hi].
  exists i. rewrite to_numeric_lookup, Hi. simpl.
  destruct (coerce_cell v) as [x| |t]; try discriminate.
  exists x. reflexivity.
Qed.

Lemma valid_table_columns df :
  valid_table df = true ->
  (exists wc, cols df !! "Worker Count" = Some wc /\
              all_numbers (nrows df) wc = true) /\
  (forall c, c ∈ numeric_cols -> is_Some (cols df !! c)) /\
  (forall c, c ∈ metric_cols ->
     exists s, cols df !! c = Some s /\ some_number s = true).
Proof.
  unfold valid_table. rewrite !andb_true_iff, forallb_forall.
  intros [[Hwc Haw] Hmet].
  assert (forall c, c ∈ metric_cols ->
            exists s, cols df !! c = Some s /\ some_number s = true) as Hm.
  { intros c Hc. apply column_is_true. apply Hmet.
    apply list_elem_of_In. exact Hc. }
  split; [apply column_is_true in Hwc; exact Hwc|]. split; [|exact Hm].
  intros c Hc. unfold numeric_cols in Hc. apply elem_of_cons in Hc as [->|Hc].
  - apply column_is_true in Haw as (s & Hs & _). exists s. exact Hs.
  - destruct (Hm c Hc) as (s & Hs & _). exists s. exact Hs.
Qed.

(** On a valid table the analysis succeeds. *)
Lemma valid_table_analyse df :
  valid_table df = true ->
  exists df1 a, coerce_columns numeric_cols df = Ok df1 /\
    analyse df = Ok a /\
    a_frame a = setitem df1 "Worker Label" (map PStr (a_labels a)).
Proof.
  intros Hvalid.
  destruct (valid_table_columns _ Hvalid) as ((wc & Hwc & Hall) & Hpres & Hmet).
  destruct (coerce_columns_total numeric_cols df Hpres) as [df1 Hco].
  destruct (coerce_columns_spec _ _ _ Hco) as [Hn Hc].
  assert (exists labels, apply_rows create_label df1 = Ok labels) as [labels Hlab].
  { apply res_map_total. intros i Hi. apply elem_of_seq in Hi.
    destruct (all_numbers_lookup _ _ i Hall) as [x Hx]; [lia|].
    destruct (coerced_cell_shape numeric_cols df df1 "Actual Workers" i Hco)
      as (aw & Haw & Htext); [unfold numeric_cols; left|].
    apply (create_label_total df1 i x aw); [|exact Haw | exact Htext].
    rewrite (coerce_columns_cell _ _ _ _ _ Hco).
    rewrite decide_False by exact worker_count_not_coerced.
    unfold cell. rewrite Hwc. simpl. rewrite Hx. reflexivity. }
  destruct (analyse_best df df1 labels Hco Hlab) as (a & Ha & Hf & Hl & _).
  { intros c Hin. destruct (Hmet c Hin) as (s & Hs & Hsome).
    exists (to_numeric s). split; [|apply some_number_coerced; exact Hsome].
    rewrite Hc, decide_True by (apply metric_is_numeric; exact Hin).
    rewrite Hs. reflexivity. }
  exists df1, a. split; [exact Hco|]. split; [exact Ha|].
  rewrite Hl. exact Hf.
Qed.

Lemma run_missing_summary dir d :
  summary_csv d = None ->
  plot_benchmark_results dir d =
    {| run_outcome := Exited 1;
       run_stdout := ["Error: Summary file not found at "
                        +:+ path_join dir "summary.csv"];
       run_dir := d |}.
Proof. intros H. unfold plot_benchmark_results. rewrite H. reflexivity. Qed.

Lemma run_raises dir d df e :
  summary_csv d = Some df ->
  render df (read_system_info (system_info_txt d)) = Raise e ->
  plot_benchmark_results dir d =
    {| run_outcome := Uncaught e; run_stdout := []; run_dir := d |}.
Proof.
  intros H Hr. unfold plot_benchmark_results. rewrite H, Hr. reflexivity.
Qed.

Lemma run_finishes dir d df fig :
  summary_csv d = Some df ->
  render df (read_system_info (system_info_txt d)) = Ok fig ->
  plot_benchmark_results dir d =
    {| run_outcome := Finished;
       run_stdout := ["Plot saved to: "
                        +:+ path_join dir "benchmark_results.png"];
       run_dir := {| summary_csv := summary_csv d;
                     system_info_txt := system_info_txt d;
                     benchmark_results_png := Some fig |} |}.
Proof.
  intros H Hr. unfold plot_benchmark_results. rewrite H, Hr. reflexivity.
Qed.

End Runs.

(** ** Palettes *)

Lemma green_not_default : green <> default_blue.
Proof. discriminate. Qed.

Lemma bar_color_green best i : bar_color best i = green <-> is_best best i = true.
Proof.
  unfold bar_color. destruct (is_best best i); split; try reflexivity.
  - intros H. exfalso. apply green_not_default. symmetry. exact H.
  - discriminate.
Qed.

Lemma is_best_idx b i : is_best (Idx b) i = true <-> i = b.
Proof. simpl. apply Nat.eqb_eq. Qed.

Lemma palette_from_other best i labels m l :
  l ∉ labels -> palette_from best i labels m !! l = m !! l.
Proof.
  revert i m. induction labels as [|l0 ls IH]; intros i m Hnin; simpl.
  - reflexivity.
  - rewrite IH by (intros H; apply Hnin; right; exact H).
    apply lookup_insert_ne. intros ->. apply Hnin. left.
Qed.

(** The entry of a label is the colour computed at its last row. *)
Lemma palette_from_last best i labels m l k :
  labels !! k = Some l ->
  (forall j, labels !! j = Some l -> j <= k) ->
  palette_from best i labels m !! l = Some (bar_color best (i + k)).
Proof.
  revert i m k. induction labels as [|l0 ls IH]; intros i m k Hk Hmax.
  - discriminate Hk.
  - simpl. destruct k as [|k]; simpl in Hk.
    + injection Hk as ->. rewrite palette_from_other.
      * rewrite lookup_insert_eq, Nat.add_0_r. reflexivity.
      * intros Hin. apply list_elem_of_lookup in Hin as [j Hj].
        specialize (Hmax (S j) Hj). lia.
    + rewrite (IH (S i) _ k Hk).
      * f_equal. f_equal. lia.
      * intros j Hj. specialize (Hmax (S j) Hj). lia.
Qed.

Lemma last_row_with_label (labels : list string) i l :
  labels !! i = Some l ->
  exists k, labels !! k = Some l /\ forall j, labels !! j = Some l -> j <= k.
Proof.
  revert i. induction labels as [|l0 ls IH]; intros i Hi; [discriminate Hi|].
  destruct (decide (l ∈ ls)) as [Hin|Hnin].
  - apply list_elem_of_lookup in Hin as [i' Hi'].
    destruct (IH i' Hi') as (k & Hk & Hmax).
    exists (S k). split; [exact Hk|].
    intros [|j] Hj; [lia|]. specialize (Hmax j Hj). lia.
  - exists 0. destruct i as [|i]; simpl in Hi.
    + split; [exact Hi|]. intros [|j] Hj; [lia|].
      exfalso. apply Hnin. apply list_elem_of_lookup. exists j. exact Hj.
    + exfalso. apply Hnin. apply list_elem_of_lookup. exists i. exact Hi.
Qed.

Section PanelColors.
Context {L : Libs}.

Lemma row_color_panel a xs best title xl i l k :
  a_labels a !! i = Some l ->
  a_labels a !! k = Some l ->
  (forall j, a_labels a !! j = Some l -> j <= k) ->
  row_color (panel_of a xs best title xl) i = Some (bar_color best k).
Proof.
  intros Hi Hk Hmax. unfold row_color, panel_of. simpl. rewrite Hi. simpl.
  unfold make_palette. rewrite (palette_from_last best 0 _ ∅ l k Hk Hmax).
  reflexivity.
Qed.

Lemma row_color_label a xs best title xl i c :
  row_color (panel_of a xs best title xl) i = Some c ->
  exists l, a_labels a !! i = Some l.
Proof.
  unfold row_color, panel_of. simpl.
  destruct (a_labels a !! i) as [l|]; [|discriminate].
  intros _. exists l. reflexivity.
Qed.

(** The best row is green and the only green row exactly when no other
    row has its label. *)
Lemma only_best_green a xs b lb title xl :
  a_labels a !! b = Some lb ->
  let p := panel_of a xs (Idx b) title xl in
  (row_color p b = Some green /\ forall i, row_color p i = Some green -> i = b)
  <-> (forall j, a_labels a !! j = Some lb -> j = b).
Proof.
  intros Hb p. split.
  - intros [Hgreen Honly] j Hj. apply Honly.
    destruct (last_row_with_label _ _ _ Hb) as (k & Hk & Hmax).
    unfold p in *. rewrite (row_color_panel _ _ _ _ _ j lb k Hj Hk Hmax).
    rewrite <- Hgreen. symmetry.
    apply (row_color_panel _ _ _ _ _ b lb k Hb Hk Hmax).
  - intros Huniq. split.
    + unfold p. rewrite (row_color_panel _ _ _ _ _ b lb b Hb Hb).
      * f_equal. apply bar_color_green. apply is_best_idx. reflexivity.
      * intros j Hj. rewrite (Huniq j Hj). lia.
    + intros i Hi. destruct (row_color_label _ _ _ _ _ _ _ Hi) as [l Hl].
      destruct (last_row_with_label _ _ _ Hl) as (k & Hk & Hmax).
      unfold p in Hi. rewrite (row_color_panel _ _ _ _ _ i l k Hl Hk Hmax) in Hi.
      injection Hi as Hi. apply bar_color_green in Hi. apply is_best_idx in Hi.
      subst k. rewrite Hb in Hk. injection Hk as ->.
      apply Huniq. exact Hl.
Qed.

(** The colours of a panel, from the labels and the best-of index *)
Lemma panel_of_colors a xs best title xl :
  let p := panel_of a xs best title xl in
  (forall i l, a_labels a !! i = Some l ->
     exists k, a_labels a !! k = Some l /\
       (forall j, a_labels a !! j = Some l -> j <= k) /\
       row_color p i = Some (bar_color best k)) /\
  (forall i j l, a_labels a !! i = Some l -> a_labels a !! j = Some l ->
     row_color p i = row_color p j) /\
  (forall b lb, best = Idx b -> a_labels a !! b = Some lb ->
     (row_color p b = Some green /\
      forall i, row_color p i = Some green -> i = b)
     <-> (forall j, a_labels a !! j = Some lb -> j = b)) /\
  (NoDup (a_labels a) ->
   forall b, best = Idx b -> b < length (a_labels a) ->
     row_color p b = Some green /\
     forall i, row_color p i = Some green -> i = b).
Proof.
  intros p.
  assert (forall b lb, best = Idx b -> a_labels a !! b = Some lb ->
     (row_color p b = Some green /\
      forall i, row_color p i = Some green -> i = b)
     <-> (forall j, a_labels a !! j = Some lb -> j = b)) as Hiff.
  { intros b lb -> Hb. apply only_best_green. exact Hb. }
  split; [|split; [|split; [exact Hiff|]]].
  - intros i l Hi. destruct (last_row_with_label _ _ _ Hi) as (k & Hk & Hmax).
    exists k. split; [exact Hk|]. split; [exact Hmax|].
    apply (row_color_panel _ _ _ _ _ i l k Hi Hk Hmax).
  - intros i j l Hi Hj.
    destruct (last_row_with_label _ _ _ Hi) as (k & Hk & Hmax).
    unfold p. rewrite (row_color_panel _ _ _ _ _ i l k Hi Hk Hmax).
    rewrite (row_color_panel _ _ _ _ _ j l k Hj Hk Hmax). reflexivity.
  - intros Hnodup b Hbest Hlen.
    destruct (lookup_lt_is_Some_2 (a_labels a) b Hlen) as [lb Hb].
    apply (Hiff b lb Hbest Hb). intros j Hj.
    exact (NoDup_lookup _ _ _ _ Hnodup Hj Hb).
Qed.

End PanelColors.

(** ** Missing columns and empty tables *)

Section Failures.
Context {L : Libs}.

Lemma coerce_columns_raise_inv cs df e :
  coerce_columns cs df = Raise e ->
  exists k, k ∈ cs /\ cols df !! k = None /\ e = KeyError k.
Proof.
  revert df. induction cs as [|col cs IH]; intros df; simpl; [discriminate|].
  unfold getitem. destruct (cols df !! col) as [s|] eqn:Hcol; simpl.
  - intros Hr. destruct (IH _ Hr) as (k & Hk & Hn & ->).
    exists k. split; [right; exact Hk|]. split; [|reflexivity].
    simpl in Hn. destruct (decide (col = k)) as [->|Hne].
    + rewrite lookup_insert_eq in Hn. discriminate Hn.
    + rewrite lookup_insert_ne in Hn by exact Hne. exact Hn.
  - intros [= <-]. exists col. split; [left|]. split; [exact Hcol | reflexivity].
Qed.

Lemma analyse_coercion_raises df e :
  coerce_columns numeric_cols df = Raise e -> analyse df = Raise e.
Proof. intros H. unfold analyse. rewrite H. reflexivity. Qed.

Lemma render_raises df info e : analyse df = Raise e -> render df info = Raise e.
Proof. intros H. unfold render. rewrite H. reflexivity. Qed.

(** A frame that lacks one of the five coerced columns stops in the
    coercion loop with the KeyError of a missing column. *)
Lemma analyse_missing_numeric df c :
  c ∈ numeric_cols -> cols df !! c = None ->
  exists k, k ∈ numeric_cols /\ cols df !! k = None /\
            analyse df = Raise (KeyError k).
Proof.
  intros Hc Hnone.
  destruct (coerce_columns_missing numeric_cols df c Hc Hnone)
    as (k & Hk & Hn & Hr).
  exists k. split; [exact Hk|]. split; [exact Hn|].
  apply analyse_coercion_raises. exact Hr.
Qed.

(** With at least one row, a frame without Worker Count stops with a
    KeyError: in the coercion loop, or at the first row's label. *)
Lemma analyse_missing_worker_count df :
  cols df !! "Worker Count" = None -> 0 < nrows df ->
  exists k, k ∈ required_cols /\ cols df !! k = None /\
            analyse df = Raise (KeyError k).
Proof.
  intros Hnone Hrows.
  destruct (coerce_columns numeric_cols df) as [df1|e] eqn:Hco.
  - exists "Worker Count". split; [left|]. split; [exact Hnone|].
    destruct (coerce_columns_spec _ _ _ Hco) as [Hn Hc].
    unfold analyse. rewrite Hco. simpl.
    assert (apply_rows create_label df1 = Raise (KeyError "Worker Count")) as ->;
      [|reflexivity].
    unfold apply_rows. rewrite Hn.
    destruct (nrows df) as [|n]; [lia|]. simpl.
    unfold create_label at 1. rewrite row_get_cell. unfold cell.
    rewrite Hc, decide_False by exact worker_count_not_coerced.
    rewrite Hnone. reflexivity.
  - destruct (coerce_columns_raise_inv _ _ _ Hco) as (k & Hk & Hn & ->).
    exists k. split; [right; exact Hk|]. split; [exact Hn|].
    apply analyse_coercion_raises. exact Hco.
Qed.

(** A frame without rows never gets through the analysis. *)
Lemma analyse_empty df :
  nrows df = 0 -> frame_wf df -> exists e, analyse df = Raise e.
Proof.
  intros Hrows Hwf.
  destruct (coerce_columns numeric_cols df) as [df1|e] eqn:Hco.
  - exists ValueError.
    destruct (coerce_columns_spec _ _ _ Hco) as [Hn _].
    assert (apply_rows create_label df1 = Ok []) as Hlab.
    { unfold apply_rows. rewrite Hn, Hrows. reflexivity. }
    rewrite (analyse_steps _ _ _ Hco Hlab).
    destruct (coerced_column numeric_cols df df1 "Max Memory (MB)" Hco)
      as (s & Hs & Hs1); [unfold numeric_cols; set_solver|].
    unfold getitem. rewrite Hs1. simpl.
    specialize (Hwf _ _ Hs). simpl in Hwf. rewrite Hrows in Hwf.
    destruct s; [reflexivity | discriminate Hwf].
  - exists e. apply analyse_coercion_raises. exact Hco.
Qed.

(** ** Columns without any number *)

(** What the best-of index of a non-empty column of NaN is depends on the
    library alone. *)
Lemma idx_extreme_all_missing better s :
  s <> [] -> Forall (fun v => v = PNaN) s ->
  idx_extreme better s =
    if all_na_raises then Raise ValueError else Ok NaIdx.
Proof.
  intros Hne Hall.
  assert (existsb is_text s = false /\ forall i, arg_best better i s = None)
    as [Htext Hbest].
  { clear Hne. induction Hall as [|v s -> _ [IH1 IH2]]; [split; reflexivity|].
    split; [exact IH1|]. intros i. simpl. rewrite IH2. reflexivity. }
  unfold idx_extreme. rewrite Htext, Hbest.
  destruct s; [contradiction | reflexivity].
Qed.

(** With NaN as best-of index every palette entry is the default colour. *)
Lemma palette_without_best labels i l :
  labels !! i = Some l -> make_palette NaIdx labels !! l = Some default_blue.
Proof.
  intros Hi. destruct (last_row_with_label _ _ _ Hi) as (k & Hk & Hmax).
  unfold make_palette. rewrite (palette_from_last NaIdx 0 _ ∅ l k Hk Hmax).
  reflexivity.
Qed.

End Failures.

(** A metric column that is missing throughout: the script leaves the
    outcome to the library.  Where [idxmin] raises, the run stops with
    ValueError and no image; where it returns NaN, the run finishes and no
    bar of the Total Time panel is highlighted. *)
Lemma all_missing_column_two_ways :
  plot_benchmark_results (L := reference_libs true) "results"
      (dir_with ex_time_missing) =
    {| run_outcome := Uncaught ValueError; run_stdout := [];
       run_dir := dir_with ex_time_missing |} /\
  run_outcome (plot_benchmark_results (L := reference_libs false) "results"
                 (dir_with ex_time_missing)) = Finished /\
  panel_colors (render (L := reference_libs false) ex_time_missing default_info) 3
    = Some [Some default_blue; Some default_blue; None; None].
Proof. repeat split; vm_compute; reflexivity. Qed.
(** * The claims *)

Section Coercion_claim.
Context {L : Libs}.


End Coercion_claim.



Section Label_claim.
Context {L : Libs}.


End Label_claim.


Section Best_of_claim.
Context {L : Libs}.

(** C3: on a table whose four metric columns each keep a number after the
    coercion, the best-of indices are the first row with the least Max
    Memory (MB), the least Avg CPU (%), the greatest Max Disk Read (kB/s)
    and the least Total Time (s), rows with a missing value being skipped;
    with the memory column [100, 50, 200] the best-memory index is 1. *)
Theorem best_of_indices df df1 labels :
  coerce_columns numeric_cols df = Ok df1 ->
  apply_rows create_label df1 = Ok labels ->
  (forall c, c ∈ metric_cols ->
     exists s, cols df1 !! c = Some s /\ has_number s) ->
  exists a, analyse df = Ok a /\
    column_min_at df1 "Max Memory (MB)" (best_mem_idx a) /\
    column_min_at df1 "Avg CPU (%)" (best_cpu_idx a) /\
    column_max_at df1 "Max Disk Read (kB/s)" (best_disk_idx a) /\
    column_min_at df1 "Total Time (s)" (best_time_idx a) /\
    (cols df1 !! "Max Memory (MB)" = Some [PNum 100; PNum 50; PNum 200] ->
     best_mem_idx a = Idx 1).
Proof.
  intros Hco Hlab Hnum.
  destruct (analyse_best _ _ _ Hco Hlab Hnum)
    as (a & Ha & _ & _ & Hmem & Hcpu & Hdisk & Htime).
  exists a. repeat (split; [assumption|]).
  intros Hex. destruct Hmem as (s & i & Hs & Hi & x & Hx & Hle & Hlt).
  rewrite Hex in Hs. injection Hs as <-. rewrite Hi. f_equal.
  destruct i as [|[|[|i]]]; simpl in Hx; [| reflexivity | |discriminate Hx].
  - injection Hx as <-. exfalso.
    apply (Qlt_not_le 50 100); [reflexivity|]. exact (Hle 1 50%Q eq_refl).
  - injection Hx as <-. exfalso.
    apply (Qlt_not_le 50 200); [reflexivity|]. exact (Hle 1 50%Q eq_refl).
Qed.

End Best_of_claim.

Lemma best_of_indices_witness :
  exists a, analyse (L := ex_libs) ex_table = Ok a /\
    column_min_at ex_coerced "Max Memory (MB)" (best_mem_idx a) /\
    column_min_at ex_coerced "Avg CPU (%)" (best_cpu_idx a) /\
    column_max_at ex_coerced "Max Disk Read (kB/s)" (best_disk_idx a) /\
    column_min_at ex_coerced "Total Time (s)" (best_time_idx a) /\
    (cols ex_coerced !! "Max Memory (MB)" = Some [PNum 100; PNum 50; PNum 200] ->
     best_mem_idx a = Idx 1).
Proof.
  apply (best_of_indices (L := ex_libs) ex_table ex_coerced ex_labels).
  - vm_compute. reflexivity.
  - vm_compute. reflexivity.
  - intros c Hc. unfold metric_cols in Hc.
    repeat (apply elem_of_cons in Hc as [->|Hc]);
      [eexists; split; [reflexivity|]; exists 2; eexists; reflexivity ..
      | inversion Hc].
Defined.

Section Missing_summary_claim.
Context {L : Libs}.

(** C4: when the results directory has no summary.csv the run exits with
    code 1, prints one line that ends with the path where the file was
    expected, and leaves the directory as it was, so no image is written. *)
Theorem missing_summary_exits dir d :
  summary_csv d = None ->
  let r := plot_benchmark_results dir d in
  run_outcome r = Exited 1 /\
  run_stdout r =
    ["Error: Summary file not found at " +:+ path_join dir "summary.csv"] /\
  run_dir r = d /\
  forall prog, main [prog; dir] d = r.
Proof.
  intros H. simpl. rewrite (run_missing_summary _ _ H). simpl.
  split; [reflexivity|]. split; [reflexivity|]. split; [reflexivity|].
  intros prog. reflexivity.
Qed.

End Missing_summary_claim.

Lemma missing_summary_exits_witness :
  run_outcome (plot_benchmark_results (L := ex_libs) "results" ex_empty_dir)
    = Exited 1 /\
  run_stdout (plot_benchmark_results (L := ex_libs) "results" ex_empty_dir)
    = ["Error: Summary file not found at results/summary.csv"] /\
  run_dir (plot_benchmark_results (L := ex_libs) "results" ex_empty_dir)
    = ex_empty_dir /\
  forall prog,
    main (L := ex_libs) [prog; "results"] ex_empty_dir
    = plot_benchmark_results (L := ex_libs) "results" ex_empty_dir.
Proof.
  apply (missing_summary_exits (L := ex_libs) "results" ex_empty_dir).
  reflexivity.
Defined.

Section Missing_info_claim.
Context {L : Libs}.

(** C5: with a valid summary table and no system_info.txt the run
    finishes, the image is written, and its two captions are
    "OS: N/A | CPU: N/A" and "Drive Type: N/A". *)
Theorem missing_system_info_defaults dir d df :
  summary_csv d = Some df ->
  valid_table df = true ->
  system_info_txt d = None ->
  let r := plot_benchmark_results dir d in
  exists fig,
    run_outcome r = Finished /\
    benchmark_results_png (run_dir r) = Some fig /\
    caption_system fig = "OS: N/A | CPU: N/A" /\
    caption_drive fig = "Drive Type: N/A".
Proof.
  intros Hsum Hvalid Hinfo. simpl.
  destruct (valid_table_analyse _ Hvalid) as (df1 & a & _ & Ha & _).
  destruct (render_of_analyse df a (read_system_info (system_info_txt d)) Ha)
    as (mem & cpu & disk & time & Hr).
  rewrite (run_finishes _ _ _ _ Hsum Hr). simpl.
  eexists. split; [reflexivity|]. split; [reflexivity|]. simpl.
  rewrite Hinfo. split; reflexivity.
Qed.

End Missing_info_claim.

Lemma missing_system_info_defaults_witness :
  exists fig,
    run_outcome (ex_run ex_table) = Finished /\
    benchmark_results_png (run_dir (ex_run ex_table)) = Some fig /\
    caption_system fig = "OS: N/A | CPU: N/A" /\
    caption_drive fig = "Drive Type: N/A".
Proof.
  apply (missing_system_info_defaults (L := ex_libs) "results"
           (dir_with ex_table) ex_table);
    [reflexivity | vm_compute; reflexivity | reflexivity].
Defined.

(** C6: the scan goes through the lines in order; a line that starts with
    "OS:", "CPU:" or "Drive Type:" puts its stripped text in that field,
    so each field ends up as the stripped last line with its prefix, or as
    its default when no line has the prefix. *)
Theorem system_info_last_match lines :
  read_system_info (Some lines) =
    {| os_info := field_after "OS:" "OS: N/A" lines;
       cpu_info := field_after "CPU:" "CPU: N/A" lines;
       drive_info := field_after "Drive Type:" "Drive Type: N/A" lines |}
  /\ forall line,
       let before := read_system_info (Some lines) in
       let after := read_system_info (Some (lines ++ [line])) in
       after = scan_line before line /\
       (startswith "OS:" line = true -> os_info after = strip line) /\
       (startswith "CPU:" line = true -> cpu_info after = strip line) /\
       (startswith "Drive Type:" line = true -> drive_info after = strip line).
Proof.
  split.
  - simpl. apply scan_lines_fields.
  - intros line. simpl. rewrite fold_left_app. simpl. split; [reflexivity|].
    unfold scan_line. split; [|split].
    + intros H. rewrite H. reflexivity.
    + intros H. destruct (startswith "OS:" line) eqn:Hos.
      * rewrite (prefix_os_cpu _ Hos) in H. discriminate H.
      * rewrite H. reflexivity.
    + intros H. destruct (startswith "OS:" line) eqn:Hos.
      * rewrite (prefix_os_drive _ Hos) in H. discriminate H.
      * destruct (startswith "CPU:" line) eqn:Hcpu.
        -- rewrite (prefix_cpu_drive _ Hcpu) in H. discriminate H.
        -- rewrite H. reflexivity.
Qed.

Lemma system_info_last_match_witness :
  read_system_info (Some ex_info_lines) =
    {| os_info := "OS: Linux"; cpu_info := "CPU: two";
       drive_info := "Drive Type: N/A" |}.
Proof. exact (proj1 (system_info_last_match ex_info_lines)). Defined.

Section Rerun_claim.
Context {L : Libs}.


End Rerun_claim.


Section Palette_claim.
Context {L : Libs}.

(** C8, amended: a palette is keyed by Worker Label.  In every panel of
    the figure the bar of a row gets the colour computed at the last row
    that has the same label, so rows with one label get one colour; the
    best-of row is green and the only green row exactly when no other row
    has its label, which is the case when all labels are pairwise
    distinct. *)
Theorem palette_keyed_by_label df info a fig n p best :
  analyse df = Ok a ->
  render df info = Ok fig ->
  panels fig !! n = Some p ->
  analysis_best a !! n = Some best ->
  (forall i l, a_labels a !! i = Some l ->
     exists k, a_labels a !! k = Some l /\
       (forall j, a_labels a !! j = Some l -> j <= k) /\
       row_color p i = Some (bar_color best k)) /\
  (forall i j l, a_labels a !! i = Some l -> a_labels a !! j = Some l ->
     row_color p i = row_color p j) /\
  (forall b lb, best = Idx b -> a_labels a !! b = Some lb ->
     (row_color p b = Some green /\
      forall i, row_color p i = Some green -> i = b)
     <-> (forall j, a_labels a !! j = Some lb -> j = b)) /\
  (NoDup (a_labels a) ->
   forall b, best = Idx b -> b < length (a_labels a) ->
     row_color p b = Some green /\
     forall i, row_color p i = Some green -> i = b).
Proof.
  intros Ha Hfig Hp Hbest.
  destruct (render_of_analyse df a info Ha) as (mem & cpu & disk & time & Hr).
  rewrite Hr in Hfig. injection Hfig as <-. simpl in Hp.
  unfold analysis_best in Hbest.
  destruct n as [|[|[|[|n]]]]; simpl in Hp, Hbest; try discriminate Hp;
    injection Hp as <-; injection Hbest as <-; apply panel_of_colors.
Qed.

End Palette_claim.

Lemma palette_keyed_by_label_witness :
  row_color ex_mem_panel 1 = Some green /\
  forall i, row_color ex_mem_panel i = Some green -> i = 1.
Proof.
  refine (proj2 (proj2 (proj2
    (palette_keyed_by_label (L := ex_libs) ex_table default_info ex_analysis
       ex_figure 0 ex_mem_panel (Idx 1) _ _ _ _))) _ 1 eq_refl _).
  - vm_compute. reflexivity.
  - vm_compute. reflexivity.
  - reflexivity.
  - reflexivity.
  - change (NoDup ["Auto (8)"; "2"; "4"]).
    exact (bool_decide_unpack (NoDup ["Auto (8)"; "2"; "4"]) I).
  - simpl. lia.
Defined.

(** C8 as stated fails in its "exactly when": in [ex_repeated] rows 1 and
    2 share the label "2", yet in each of the four panels the best-of row 0
    is green and is the only green row. *)
Lemma repeated_label_still_highlights :
  best_indices (analyse (L := ex_libs) ex_repeated)
    = Ok [Idx 0; Idx 0; Idx 0; Idx 0] /\
  (a_labels <$> match analyse (L := ex_libs) ex_repeated with
                | Ok a => Some a
                | Raise _ => None
                end) = Some ["1"; "2"; "2"] /\
  map (panel_colors (render (L := ex_libs) ex_repeated default_info))
      [0; 1; 2; 3]
    = replicate 4
        (Some [Some green; Some default_blue; Some default_blue; None]) /\
  ~ NoDup ["1"; "2"; "2"].
Proof.
  split; [vm_compute; reflexivity|]. split; [vm_compute; reflexivity|].
  split; [vm_compute; reflexivity|].
  intros H. apply NoDup_cons in H as [_ H]. apply NoDup_cons in H as [H _].
  apply H. left.
Qed.

Section Missing_column_claim.
Context {L : Libs}.

(** C9, amended: when summary.csv is there but its table lacks one of the
    six required columns, the run ends with an uncaught exception, prints
    no diagnostic line and writes no image.  The exception is the
    KeyError of a missing required column whenever the missing column is
    one of the five coerced ones or the table has at least one row. *)
Theorem missing_column_raises dir d df c :
  summary_csv d = Some df ->
  c ∈ required_cols ->
  cols df !! c = None ->
  let r := plot_benchmark_results dir d in
  (frame_wf df ->
     exists e, r = {| run_outcome := Uncaught e; run_stdout := [];
                      run_dir := d |}) /\
  (c ∈ numeric_cols \/ 0 < nrows df ->
     exists k, k ∈ required_cols /\ cols df !! k = None /\
       r = {| run_outcome := Uncaught (KeyError k); run_stdout := [];
              run_dir := d |}).
Proof.
  intros Hsum Hc Hnone. simpl.
  assert (c ∈ numeric_cols \/ 0 < nrows df ->
          exists k, k ∈ required_cols /\ cols df !! k = None /\
                    analyse df = Raise (KeyError k)) as Hkey.
  { intros [Hnum|Hrows].
    - destruct (analyse_missing_numeric df c Hnum Hnone) as (k & Hk & Hn & Ha).
      exists k. split; [right; exact Hk|]. split; [exact Hn | exact Ha].
    - unfold required_cols in Hc. apply elem_of_cons in Hc as [->|Hnum].
      + apply analyse_missing_worker_count; assumption.
      + destruct (analyse_missing_numeric df c Hnum Hnone)
          as (k & Hk & Hn & Ha).
        exists k. split; [right; exact Hk|]. split; [exact Hn | exact Ha]. }
  split.
  - intros Hwf.
    assert (exists e, analyse df = Raise e) as [e He].
    { destruct (nrows df) as [|n] eqn:Hrows.
      - apply analyse_empty; assumption.
      - destruct Hkey as (k & _ & _ & Ha); [right; lia|].
        exists (KeyError k). exact Ha. }
    exists e. apply (run_raises dir d df e Hsum).
    apply render_raises. exact He.
  - intros Hcase. destruct (Hkey Hcase) as (k & Hk & Hn & Ha).
    exists k. split; [exact Hk|]. split; [exact Hn|].
    apply (run_raises dir d df _ Hsum). apply render_raises. exact Ha.
Qed.

End Missing_column_claim.

Lemma missing_column_raises_witness :
  (frame_wf ex_no_time ->
     exists e, ex_run ex_no_time =
       {| run_outcome := Uncaught e; run_stdout := [];
          run_dir := dir_with ex_no_time |}) /\
  ("Total Time (s)" ∈ numeric_cols \/ 0 < nrows ex_no_time ->
     exists k, k ∈ required_cols /\ cols ex_no_time !! k = None /\
       ex_run ex_no_time =
         {| run_outcome := Uncaught (KeyError k); run_stdout := [];
            run_dir := dir_with ex_no_time |}).
Proof.
  apply (missing_column_raises (L := ex_libs) "results"
           (dir_with ex_no_time) ex_no_time "Total Time (s)").
  - reflexivity.
  - unfold required_cols, numeric_cols.
    do 5 (apply list_elem_of_further). apply list_elem_of_here.
  - vm_compute. reflexivity.
Defined.

(** C9 as stated fails on the kind of exception: a summary.csv that has
    the header of the five coerced columns, no Worker Count column and no
    row passes the coercion loop, derives no label, and stops with the
    ValueError of an empty column, not with a column-lookup error. *)
Lemma header_only_not_key_error :
  cols ex_header_only !! "Worker Count" = None /\
  plot_benchmark_results (L := reference_libs false) "results"
      (dir_with ex_header_only) =
    {| run_outcome := Uncaught ValueError; run_stdout := [];
       run_dir := dir_with ex_header_only |} /\
  plot_benchmark_results (L := reference_libs true) "results"
      (dir_with ex_header_only) =
    {| run_outcome := Uncaught ValueError; run_stdout := [];
       run_dir := dir_with ex_header_only |}.
Proof. repeat split; vm_compute; reflexivity. Qed.

(** * Further properties of the script *)

(** ** The command line and the effects of a run *)

Section Run_effects.
Context {L : Libs}.




End Run_effects.


(** ** The coercion loop and the frame of the analysis *)

Lemma frame_eq df1 df2 :
  nrows df1 = nrows df2 -> cols df1 = cols df2 -> df1 = df2.
Proof. destruct df1, df2. simpl. intros -> ->. reflexivity. Qed.

Section Frames.
Context {L : Libs}.

Lemma coerce_cell_keeps v : is_text v = false -> coerce_cell v = v.
Proof. destruct v; simpl; [reflexivity | reflexivity | discriminate]. Qed.

Lemma to_numeric_length s : length (to_numeric s) = length s.
Proof. unfold to_numeric. apply length_map. Qed.

(** X4: the coercion loop keeps the shape of the table and touches text
    cells of the five listed columns only: the row count, the set of
    columns and the length of every column stay, a frame with one cell per
    row stays one, columns outside the list (Worker Count, any extra
    column) are unchanged, and a cell that is a number or NaN keeps its
    value. *)
Theorem coercion_keeps_frame df df1 :
  coerce_columns numeric_cols df = Ok df1 ->
  nrows df1 = nrows df /\
  dom (cols df1) = dom (cols df) /\
  (forall c s, cols df !! c = Some s ->
     exists s1, cols df1 !! c = Some s1 /\ length s1 = length s) /\
  (frame_wf df -> frame_wf df1) /\
  (forall c, c ∉ numeric_cols -> cols df1 !! c = cols df !! c) /\
  (forall c i v, cell df c i = Some v -> is_text v = false ->
     cell df1 c i = Some v).
Proof.
  intros Hco. destruct (coerce_columns_spec _ _ _ Hco) as [Hn Hc].
  assert (forall c s, cols df !! c = Some s ->
            exists s1, cols df1 !! c = Some s1 /\ length s1 = length s) as Hlen.
  { intros c s Hs. rewrite Hc, Hs.
    destruct (decide (c ∈ numeric_cols)); simpl; eexists; split;
      try reflexivity. apply to_numeric_length. }
  split; [exact Hn|]. split; [|split; [exact Hlen|split; [|split]]].
  - apply set_eq. intros c. rewrite !elem_of_dom, Hc.
    destruct (decide (c ∈ numeric_cols)); [|reflexivity].
    rewrite fmap_is_Some. reflexivity.
  - intros Hwf c s1 Hs1. simpl. rewrite Hn.
    rewrite Hc in Hs1. destruct (cols df !! c) as [s|] eqn:Hs.
    + destruct (Hlen c s Hs) as (s1' & Hs1' & Hl).
      rewrite Hc, Hs in Hs1'. rewrite Hs1 in Hs1'. injection Hs1' as <-.
      rewrite Hl. exact (Hwf c s Hs).
    + destruct (decide (c ∈ numeric_cols)); discriminate Hs1.
  - intros c Hc'. rewrite Hc. apply decide_False. exact Hc'.
  - intros c i v Hv Htext. rewrite (coerce_columns_cell _ _ _ _ _ Hco).
    destruct (decide (c ∈ numeric_cols)); [|exact Hv].
    rewrite Hv. simpl. rewrite (coerce_cell_keeps _ Htext). reflexivity.
Qed.

(** X5: the coercion loop is idempotent: run on its own result it
    succeeds and returns that result unchanged. *)
Theorem coercion_idempotent df df1 :
  coerce_columns numeric_cols df = Ok df1 ->
  coerce_columns numeric_cols df1 = Ok df1.
Proof.
  intros Hco. destruct (coerce_columns_spec _ _ _ Hco) as [Hn Hc].
  destruct (coerce_columns_total numeric_cols df1) as [df2 Hco2].
  { intros c Hin. rewrite Hc, decide_True by exact Hin.
    apply fmap_is_Some. exact (coerce_columns_present _ _ _ _ Hco Hin). }
  rewrite Hco2. f_equal.
  destruct (coerce_columns_spec _ _ _ Hco2) as [Hn2 Hc2].
  apply frame_eq; [exact Hn2|]. apply map_eq. intros c.
  rewrite Hc2. destruct (decide (c ∈ numeric_cols)) as [Hin|Hnin];
    [|reflexivity].
  rewrite Hc, decide_True by exact Hin.
  destruct (cols df !! c) as [s|]; simpl; [|reflexivity].
  rewrite to_numeric_idem. reflexivity.
Qed.

(** X6: in the frame that a successful analysis hands to the plots, the
    Worker Label column holds the derived labels, one per row, also when
    the input table had a column of that name; the five listed columns are
    the coerced input columns, every other column is the input column, and
    a table with one cell per row stays one. *)
Theorem analysis_frame df a :
  analyse df = Ok a ->
  nrows (a_frame a) = nrows df /\
  length (a_labels a) = nrows df /\
  cols (a_frame a) !! "Worker Label" = Some (map PStr (a_labels a)) /\
  (forall c, c ∈ numeric_cols ->
     exists s, cols df !! c = Some s /\
               cols (a_frame a) !! c = Some (to_numeric s)) /\
  (forall c, c ∉ numeric_cols -> c <> "Worker Label" ->
     cols (a_frame a) !! c = cols df !! c) /\
  (frame_wf df -> frame_wf (a_frame a)).
Proof.
  intros Ha.
  destruct (analyse_inv _ _ Ha)
    as (df1 & mem & cpu & disk & time & Hco & Hlab & Hframe & _).
  destruct (coerce_columns_spec _ _ _ Hco) as [Hn Hc].
  pose proof (apply_rows_length _ _ _ Hlab) as Hlen.
  assert (forall c, c <> "Worker Label" ->
            cols (a_frame a) !! c = cols df1 !! c) as Hother.
  { intros c Hne. rewrite Hframe. simpl. apply lookup_insert_ne.
    intros Heq. apply Hne. symmetry. exact Heq. }
  assert (forall c, c ∈ numeric_cols -> c <> "Worker Label") as Hnum.
  { intros c Hin ->. unfold numeric_cols in Hin.
    repeat (apply elem_of_cons in Hin as [Hin|Hin]; [discriminate Hin|]).
    inversion Hin. }
  split; [rewrite Hframe; exact Hn|]. split; [congruence|].
  split; [rewrite Hframe; simpl; apply lookup_insert_eq|].
  split; [|split].
  - intros c Hin.
    destruct (coerced_column _ _ _ _ Hco Hin) as (s & Hs & Hs1).
    exists s. split; [exact Hs|]. rewrite (Hother c (Hnum c Hin)). exact Hs1.
  - intros c Hnin Hne. rewrite (Hother c Hne), Hc.
    apply decide_False. exact Hnin.
  - intros Hwf c s Hs. simpl. rewrite Hframe. simpl. rewrite Hn.
    rewrite Hframe in Hs. simpl in Hs.
    destruct (decide (c = "Worker Label")) as [->|Hne].
    + rewrite lookup_insert_eq in Hs. injection Hs as <-.
      rewrite length_map. congruence.
    + rewrite lookup_insert_ne in Hs by (intros Heq; apply Hne; congruence).
      rewrite Hc in Hs. destruct (cols df !! c) as [s0|] eqn:Hs0.
      * specialize (Hwf c s0 Hs0). simpl in Hwf.
        destruct (decide (c ∈ numeric_cols)); simpl in Hs;
          injection Hs as <-; rewrite ?to_numeric_length; exact Hwf.
      * destruct (decide (c ∈ numeric_cols)); discriminate Hs.
Qed.

End Frames.

Lemma coercion_keeps_frame_witness :
  nrows ex_coerced = nrows ex_table /\
  dom (cols ex_coerced) = dom (cols ex_table) /\
  (forall c s, cols ex_table !! c = Some s ->
     exists s1, cols ex_coerced !! c = Some s1 /\ length s1 = length s) /\
  (frame_wf ex_table -> frame_wf ex_coerced) /\
  (forall c, c ∉ numeric_cols -> cols ex_coerced !! c = cols ex_table !! c) /\
  (forall c i v, cell ex_table c i = Some v -> is_text v = false ->
     cell ex_coerced c i = Some v).
Proof.
  apply (coercion_keeps_frame (L := ex_libs) ex_table ex_coerced).
  vm_compute. reflexivity.
Defined.

Lemma coercion_idempotent_witness :
  coerce_columns (L := ex_libs) numeric_cols ex_coerced = Ok ex_coerced.
Proof.
  apply (coercion_idempotent (L := ex_libs) ex_table ex_coerced).
  vm_compute. reflexivity.
Defined.

Lemma analysis_frame_witness :
  nrows (a_frame ex_analysis) = nrows ex_table /\
  length (a_labels ex_analysis) = nrows ex_table /\
  cols (a_frame ex_analysis) !! "Worker Label"
    = Some (map PStr (a_labels ex_analysis)) /\
  (forall c, c ∈ numeric_cols ->
     exists s, cols ex_table !! c = Some s /\
       cols (a_frame ex_analysis) !! c = Some (to_numeric (L := ex_libs) s)) /\
  (forall c, c ∉ numeric_cols -> c <> "Worker Label" ->
     cols (a_frame ex_analysis) !! c = cols ex_table !! c) /\
  (frame_wf ex_table -> frame_wf (a_frame ex_analysis)).
Proof.
  apply (analysis_frame (L := ex_libs) ex_table ex_analysis).
  vm_compute. reflexivity.
Defined.

(** ** When the analysis succeeds and how it fails *)


Lemma arg_best_in better i s j y :
  arg_best better i s = Some (j, y) ->
  i <= j /\ s !! (j - i) = Some (PNum y).
Proof.
  revert i j y. induction s as [|v s IH]; intros i j y Hres; [discriminate|].
  simpl in Hres.
  assert (forall j' y', arg_best better (S i) s = Some (j', y') ->
            i <= j' /\ (v :: s) !! (j' - i) = Some (PNum y')) as Htail.
  { intros j' y' Hrec. destruct (IH _ _ _ Hrec) as [Hle Hat].
    split; [lia|]. replace (j' - i) with (S (j' - S i)) by lia. exact Hat. }
  destruct v as [x| |t].
  - destruct (arg_best better (S i) s) as [[j' y']|] eqn:Hrec.
    + destruct (better y' x); injection Hres as <- <-.
      * apply Htail. reflexivity.
      * split; [lia|]. rewrite Nat.sub_diag. reflexivity.
    + injection Hres as <- <-. split; [lia|].
      rewrite Nat.sub_diag. reflexivity.
  - apply Htail. exact Hres.
  - apply Htail. exact Hres.
Qed.

Section Outcomes.
Context {L : Libs}.












End Outcomes.


(** ** Labels of different rows *)





Section Label_collisions.
Context {L : Libs}.




End Label_collisions.



(** ** Best-of indices and palettes *)

Section Index_and_palette.
Context {L : Libs}.

Lemma idx_extreme_result better s ix :
  idx_extreme better s = Ok ix ->
  (exists i x, ix = Idx i /\ i < length s /\ s !! i = Some (PNum x)) \/
  (ix = NaIdx /\ all_na_raises = false /\ s <> [] /\
   forall i x, s !! i <> Some (PNum x)).
Proof.
  unfold idx_extreme. destruct (existsb is_text s); [discriminate|].
  destruct s as [|v s]; [discriminate|].
  destruct (arg_best better 0 (v :: s)) as [[j y]|] eqn:Hr.
  - intros [= <-]. left. destruct (arg_best_in _ _ _ _ _ Hr) as [_ Hat].
    rewrite Nat.sub_0_r in Hat. exists j, y. split; [reflexivity|].
    split; [exact (lookup_lt_Some _ _ _ Hat) | exact Hat].
  - destruct all_na_raises; [discriminate|]. intros [= <-]. right.
    split; [reflexivity|]. split; [reflexivity|]. split; [discriminate|].
    exact (arg_best_none _ _ _ Hr).
Qed.

(** X11: a best-of index never names a row outside the column or a row
    whose value is missing: what [idxmin] or [idxmax] returns is a row
    that holds a number, or NaN, and NaN only for a non-empty column
    without any number under a library that returns NaN there.  On an
    empty column both raise ValueError, whatever the library. *)
Theorem best_of_index_in_range s :
  idxmin [] = Raise ValueError /\ idxmax [] = Raise ValueError /\
  forall ix, idxmin s = Ok ix \/ idxmax s = Ok ix ->
    (exists i x, ix = Idx i /\ i < length s /\ s !! i = Some (PNum x)) \/
    (ix = NaIdx /\ all_na_raises = false /\ s <> [] /\
     forall i x, s !! i <> Some (PNum x)).
Proof.
  split; [reflexivity|]. split; [reflexivity|].
  intros ix [H|H]; exact (idx_extreme_result _ _ _ H).
Qed.

(** X12: the keys of a palette are exactly the labels of the table, every
    colour is green or the default blue, at most one label is green, and a
    green label is the label of the best-of row with no later row of that
    label; without a best-of row (NaN, or an index past the last row) no
    label is green. *)
Theorem palette_shape best labels :
  (forall l, is_Some (make_palette best labels !! l) <-> l ∈ labels) /\
  (forall l c, make_palette best labels !! l = Some c ->
     c = green \/ c = default_blue) /\
  (forall l, make_palette best labels !! l = Some green ->
     exists b, best = Idx b /\ labels !! b = Some l /\
               forall j, labels !! j = Some l -> j <= b) /\
  (forall l1 l2, make_palette best labels !! l1 = Some green ->
     make_palette best labels !! l2 = Some green -> l1 = l2).
Proof.
  assert (forall l c, make_palette best labels !! l = Some c ->
            exists k, labels !! k = Some l /\
              (forall j, labels !! j = Some l -> j <= k) /\
              c = bar_color best k) as Hentry.
  { intros l c Hl. destruct (decide (l ∈ labels)) as [Hin|Hnin].
    - apply list_elem_of_lookup in Hin as [i Hi].
      destruct (last_row_with_label _ _ _ Hi) as (k & Hk & Hmax).
      exists k. split; [exact Hk|]. split; [exact Hmax|].
      unfold make_palette in Hl.
      rewrite (palette_from_last best 0 _ ∅ l k Hk Hmax) in Hl.
      simpl in Hl. congruence.
    - unfold make_palette in Hl. rewrite palette_from_other in Hl by exact Hnin.
      rewrite lookup_empty in Hl. discriminate Hl. }
  assert (forall l, make_palette best labels !! l = Some green ->
            exists b, best = Idx b /\ labels !! b = Some l /\
                      forall j, labels !! j = Some l -> j <= b) as Hgreen.
  { intros l Hl. destruct (Hentry l green Hl) as (k & Hk & Hmax & Hc).
    symmetry in Hc. apply bar_color_green in Hc.
    destruct best as [b|]; [|discriminate Hc].
    apply is_best_idx in Hc. subst k. exists b. auto. }
  split; [|split; [|split; [exact Hgreen|]]].
  - intros l. split.
    + intros [c Hc]. destruct (Hentry l c Hc) as (k & Hk & _).
      apply list_elem_of_lookup. exists k. exact Hk.
    + intros Hin. apply list_elem_of_lookup in Hin as [i Hi].
      destruct (last_row_with_label _ _ _ Hi) as (k & Hk & Hmax).
      unfold make_palette.
      rewrite (palette_from_last best 0 _ ∅ l k Hk Hmax). eexists. reflexivity.
  - intros l c Hl. destruct (Hentry l c Hl) as (k & _ & _ & ->).
    unfold bar_color. destruct (is_best best k); [left | right]; reflexivity.
  - intros l1 l2 H1 H2.
    destruct (Hgreen l1 H1) as (b1 & Hb1 & Hl1 & _).
    destruct (Hgreen l2 H2) as (b2 & Hb2 & Hl2 & _).
    congruence.
Qed.



End Index_and_palette.


(** ** Texts: stripping, prefixes and paths *)

Lemma str_app_cons c s t : String c s +:+ t = String c (s +:+ t).
Proof. reflexivity. Qed.

Lemma str_app_nil_r s : s +:+ EmptyString = s.
Proof.
  induction s as [|c s IH]; [reflexivity|].
  rewrite str_app_cons, IH. reflexivity.
Qed.

Lemma str_app_assoc s t u : (s +:+ t) +:+ u = s +:+ (t +:+ u).
Proof.
  induction s as [|c s IH]; [reflexivity|].
  rewrite !str_app_cons, IH. reflexivity.
Qed.

Lemma rev_app_spec s t : String.rev_app s t = String.rev s +:+ t.
Proof.
  revert t. induction s as [|c s IH]; intros t; [reflexivity|].
  unfold String.rev. simpl. rewrite (IH (String c t)), (IH (String c EmptyString)).
  rewrite str_app_assoc. reflexivity.
Qed.

Lemma str_rev_cons c s :
  String.rev (String c s) = String.rev s +:+ String c EmptyString.
Proof. unfold String.rev at 1. simpl. apply rev_app_spec. Qed.

Lemma str_rev_app s t : String.rev (s +:+ t) = String.rev t +:+ String.rev s.
Proof.
  induction s as [|c s IH].
  - rewrite str_app_nil_r. reflexivity.
  - rewrite str_app_cons, !str_rev_cons, IH, str_app_assoc. reflexivity.
Qed.

Lemma str_rev_involutive s : String.rev (String.rev s) = s.
Proof.
  induction s as [|c s IH]; [reflexivity|].
  rewrite str_rev_cons, str_rev_app, IH. reflexivity.
Qed.

Lemma lstrip_no_leading s : no_leading_space (lstrip s).
Proof.
  induction s as [|c s IH]; simpl; [exact I|].
  destruct (py_isspace c) eqn:Hc; [exact IH | exact Hc].
Qed.

Lemma lstrip_id s : no_leading_space s -> lstrip s = s.
Proof. destruct s as [|c s]; simpl; [reflexivity|]. intros ->. reflexivity. Qed.

Lemma lstrip_app_keep a c b :
  py_isspace c = false ->
  lstrip (a +:+ String c b) = lstrip a +:+ String c b.
Proof.
  intros Hc. induction a as [|x a IH].
  - simpl. change (EmptyString +:+ String c b) with (String c b).
    simpl. rewrite Hc. reflexivity.
  - rewrite str_app_cons. simpl. destruct (py_isspace x); [exact IH|].
    rewrite str_app_cons. reflexivity.
Qed.

(** [rstrip] does not reach behind a character that is no white space. *)
Lemma rstrip_app_keep p c rest :
  py_isspace c = false ->
  rstrip ((p +:+ String c EmptyString) +:+ rest)
  = (p +:+ String c EmptyString) +:+ rstrip rest.
Proof.
  intros Hc. unfold rstrip.
  rewrite (str_rev_app (p +:+ String c EmptyString) rest).
  rewrite (str_rev_app p (String c EmptyString)).
  change (String.rev (String c EmptyString)) with (String c EmptyString).
  rewrite (str_app_cons c EmptyString (String.rev p)).
  change (EmptyString +:+ String.rev p) with (String.rev p).
  rewrite (lstrip_app_keep _ c _ Hc).
  rewrite str_rev_app, str_rev_cons, str_rev_involutive. reflexivity.
Qed.

Lemma rstrip_no_leading t : no_leading_space t -> no_leading_space (rstrip t).
Proof.
  destruct t as [|c t]; [intros _; exact I|]. simpl. intros Hc.
  change (String c t) with ((EmptyString +:+ String c EmptyString) +:+ t).
  rewrite (rstrip_app_keep EmptyString c t Hc). exact Hc.
Qed.

Lemma strip_trimmed s : trimmed (strip s).
Proof.
  unfold strip. split.
  - apply rstrip_no_leading. apply lstrip_no_leading.
  - unfold rstrip. rewrite str_rev_involutive. apply lstrip_no_leading.
Qed.

Lemma trimmed_strip s : trimmed s -> strip s = s.
Proof.
  intros [Hl Hr]. unfold strip, rstrip.
  rewrite (lstrip_id s Hl), (lstrip_id _ Hr). apply str_rev_involutive.
Qed.

Lemma startswith_app p s :
  startswith p s = true <-> exists rest, s = p +:+ rest.
Proof.
  unfold startswith. revert s. induction p as [|a p IH]; intros s.
  - split; [intros _; exists s; reflexivity|].
    intros _. destruct s; reflexivity.
  - destruct s as [|b s].
    + split; [intros H; discriminate H|]. intros [rest H]. discriminate H.
    + rewrite prefix_cons. destruct (ascii_dec a b) as [<-|Hne].
      * rewrite IH. split; intros [rest H]; exists rest.
        -- rewrite str_app_cons, H. reflexivity.
        -- rewrite str_app_cons in H. injection H as H. exact H.
      * split; [intros H; discriminate H|]. intros [rest H].
        rewrite str_app_cons in H. congruence.
Qed.

(** A line that starts with a prefix ending in a colon still starts with
    it once stripped, when the prefix starts with no white space. *)
Lemma strip_keeps_prefix q line :
  no_leading_space (q +:+ ":") ->
  startswith (q +:+ ":") line = true ->
  startswith (q +:+ ":") (strip line) = true.
Proof.
  intros Hq Hline. apply startswith_app in Hline as [rest ->].
  apply startswith_app. exists (rstrip rest). unfold strip.
  rewrite lstrip_id.
  - apply rstrip_app_keep. reflexivity.
  - destruct q as [|c q]; simpl in *; [reflexivity | exact Hq].
Qed.

Lemma field_after_cases p old lines :
  field_after p old lines = old \/
  exists line, startswith p line = true /\
               field_after p old lines = strip line.
Proof.
  unfold field_after.
  destruct (last (List.filter (startswith p) lines)) as [line|] eqn:Hlast;
    [|left; reflexivity].
  right. exists line. split; [|reflexivity].
  apply last_Some in Hlast as [l' Hl'].
  assert (In line (List.filter (startswith p) lines)) as Hin.
  { rewrite Hl'. apply in_or_app. right. left. reflexivity. }
  apply filter_In in Hin. apply Hin.
Qed.

Lemma filter_filter_implied {A} (p q : A -> bool) l :
  (forall x, p x = true -> q x = true) ->
  List.filter p (List.filter q l) = List.filter p l.
Proof.
  intros Himp. induction l as [|x l IH]; [reflexivity|]. simpl.
  destruct (q x) eqn:Hq; simpl.
  - rewrite IH. reflexivity.
  - destruct (p x) eqn:Hp; [|exact IH].
    rewrite (Himp x Hp) in Hq. discriminate Hq.
Qed.

(** X14: whatever system_info.txt holds, and also without the file, each
    of the three display strings starts with its key ("OS:", "CPU:",
    "Drive Type:") and has white space neither at its start nor at its
    end, so no caption carries the newline of the line it came from. *)
Theorem captions_shape file :
  (startswith "OS:" (os_info (read_system_info file)) = true /\
   trimmed (os_info (read_system_info file))) /\
  (startswith "CPU:" (cpu_info (read_system_info file)) = true /\
   trimmed (cpu_info (read_system_info file))) /\
  (startswith "Drive Type:" (drive_info (read_system_info file)) = true /\
   trimmed (drive_info (read_system_info file))) /\
  startswith "OS:" (system_info_display (read_system_info file)) = true.
Proof.
  assert (forall q old lines,
            no_leading_space (q +:+ ":") ->
            startswith (q +:+ ":") old = true -> trimmed old ->
            startswith (q +:+ ":") (field_after (q +:+ ":") old lines) = true /\
            trimmed (field_after (q +:+ ":") old lines)) as Hfield.
  { intros q old lines Hq Hold Htrim.
    destruct (field_after_cases (q +:+ ":") old lines) as [->|(line & Hl & ->)].
    - split; assumption.
    - split; [apply strip_keeps_prefix; assumption | apply strip_trimmed]. }
  assert (forall old, startswith "OS:" old = true ->
            forall cpu, startswith "OS:" (old +:+ " | " +:+ cpu) = true) as Hdisp.
  { intros old Hold cpu. apply startswith_app in Hold as [rest ->].
    apply startswith_app. exists (rest +:+ " | " +:+ cpu).
    apply str_app_assoc. }
  destruct file as [lines|]; simpl.
  - rewrite scan_lines_fields. simpl.
    destruct (Hfield "OS" "OS: N/A" lines) as [H1 H2];
      [reflexivity | reflexivity | split; reflexivity|].
    destruct (Hfield "CPU" "CPU: N/A" lines) as [H3 H4];
      [reflexivity | reflexivity | split; reflexivity|].
    destruct (Hfield "Drive Type" "Drive Type: N/A" lines) as [H5 H6];
      [reflexivity | reflexivity | split; reflexivity|].
    repeat split; try assumption; try apply H2; try apply H4; try apply H6.
    unfold system_info_display. simpl. apply Hdisp. exact H1.
  - repeat split; reflexivity.
Qed.

(** X15: the scan looks at the lines that start with one of the three
    keys and at no other line: dropping every other line from the file
    changes nothing, and a file without any such line gives the same
    strings as a missing file.  The key is looked for before the line is
    stripped, so a line that starts with white space is never such a
    line. *)
Theorem system_info_ignores_other_lines lines :
  read_system_info (Some lines)
    = read_system_info (Some (List.filter is_info_line lines)) /\
  (List.filter is_info_line lines = [] ->
   read_system_info (Some lines) = read_system_info None) /\
  (forall line, is_info_line line = true -> no_leading_space line).
Proof.
  assert (read_system_info (Some lines)
          = read_system_info (Some (List.filter is_info_line lines))) as Heq.
  { simpl. rewrite !scan_lines_fields. unfold field_after.
    rewrite !filter_filter_implied; [reflexivity | ..];
      intros x Hx; unfold is_info_line; rewrite Hx;
      rewrite ?orb_true_r; reflexivity. }
  split; [exact Heq|]. split.
  - intros Hnone. rewrite Heq, Hnone. reflexivity.
  - intros line. unfold is_info_line, startswith.
    destruct line as [|c line]; [intros _; exact I|].
    rewrite !prefix_cons.
    destruct (ascii_dec "O" c) as [<-|]; [intros _; reflexivity|].
    destruct (ascii_dec "C" c) as [<-|]; [intros _; reflexivity|].
    destruct (ascii_dec "D" c) as [<-|]; [intros _; reflexivity|].
    intros H. simpl in H. discriminate H.
Qed.

(** X16: a path built in the results directory ends with the file name it
    was built from, and two file names give the same path only when they
    are the same name; so the image path is never the path of summary.csv
    or of system_info.txt. *)
Theorem path_join_file_names a b1 b2 :
  (exists pre, path_join a b1 = pre +:+ b1) /\
  (path_join a b1 = path_join a b2 -> b1 = b2) /\
  path_join a "benchmark_results.png" <> path_join a "summary.csv" /\
  path_join a "benchmark_results.png" <> path_join a "system_info.txt".
Proof.
  assert (forall x y, path_join a x = path_join a y -> x = y) as Hinj.
  { intros x y. unfold path_join.
    destruct (decide (a = EmptyString)); [intros H; exact H|].
    destruct (String.prefix "/" (String.rev a)); intros H.
    - exact (String.app_inj a _ _ H).
    - apply (String.app_inj a) in H. exact (String.app_inj "/" _ _ H). }
  split; [|split; [apply Hinj|split]].
  - unfold path_join. destruct (decide (a = EmptyString)).
    + exists EmptyString. reflexivity.
    + destruct (String.prefix "/" (String.rev a)).
      * exists a. reflexivity.
      * exists (a +:+ "/"). symmetry. apply str_app_assoc.
  - intros H. apply Hinj in H. discriminate H.
  - intros H. apply Hinj in H. discriminate H.
Qed.

(** ** Bar annotations *)

Section Annotation_places.
Context {L : Libs}.


End Annotation_places.

(** ** What the analysis reads *)


Section Reads.
Context {L : Libs}.




End Reads.


(** ** The extra properties on the example tables *)




Lemma best_of_index_in_range_witness :
  idxmin (L := ex_libs) [] = Raise ValueError.
Proof.
  exact (proj1 (best_of_index_in_range (L := ex_libs) [num 100; PNaN])).
Defined.

Lemma palette_shape_witness :
  is_Some (make_palette (Idx 1) ex_labels !! "2") <-> "2" ∈ ex_labels.
Proof. exact (proj1 (palette_shape (Idx 1) ex_labels) "2"). Defined.

Lemma captions_shape_witness :
  startswith "OS:" (os_info (read_system_info (Some ex_info_lines))) = true /\
  trimmed (os_info (read_system_info (Some ex_info_lines))).
Proof. exact (proj1 (captions_shape (Some ex_info_lines))). Defined.

Lemma system_info_ignores_other_lines_witness :
  read_system_info (Some ex_info_lines)
  = read_system_info (Some (List.filter is_info_line ex_info_lines)).
Proof. exact (proj1 (system_info_ignores_other_lines ex_info_lines)). Defined.

Lemma path_join_file_names_witness :
  path_join "results" "benchmark_results.png"
  <> path_join "results" "summary.csv".
Proof.
  exact (proj1 (proj2 (proj2
    (path_join_file_names "results" "summary.csv" "system_info.txt")))).
Defined.

